(** * PDF text editor: the annotation model and the screen-to-PDF export

    A shallow embedding of [pages/index.tsx], the single React component
    [PDFViewer] of the editor.  The component state (the [useState] cells,
    the two [useRef] arrays and the [localStorage] entry) becomes a record
    that every handler receives and returns; the asynchronous handlers
    ([handleFileChange], [loadPdf], [exportPdf]) are functions from the
    state at their call to the state at their return, and additionally
    return the trace of what they did to the outside world (alerts,
    console errors, decode calls, downloads).  User events that arrive
    while such a handler is suspended are modelled by the two halves of
    the handler, before and after its first [await], as separate steps of
    a session ([perform]).

    The two external libraries (pdf.js for rendering, pdf-lib for
    authoring) are collaborators: what they compute from bytes is taken as
    a parameter of the development, what the component does with their
    results is modelled from the source. *)

From Stdlib Require Import QArith Qround Qpower Lia Lqa Floats.
From stdpp Require Import base decidable option list strings pretty numbers.

(** ** Numbers

    A JavaScript [number] is modelled by the rational it denotes:
    coordinates, page sizes and the display scale 1.5 are fractions.  The
    arithmetic of the click handler is kept exact; the one subtraction of
    the export, [height - ann.y], is rounded to binary64 as the code
    computes it ([binary64] below).  Numeric results are compared with
    [==] (equality of fractions) wherever arithmetic produced them.
    The offsets a click stores are written as exact differences of the
    client coordinates.  Infinities and NaN have no counterpart: an
    operand beyond the largest finite double is outside the model. *)

Abbreviation number := Q (only parsing).

(** Rounding of a rational to the nearest integer, ties to the even one. *)
Definition rne (q : Q) : Z :=
  let f := Qfloor q in
  match (q - inject_Z f ?= 1 # 2)%Q with
  | Lt => f
  | Gt => (f + 1)%Z
  | Eq => if Z.even f then f else (f + 1)%Z
  end.

(** The binary exponent of a positive rational: the [k] with
    [2 ^ k <= q < 2 ^ (k + 1)]. *)
Definition ilog2 (q : Q) : Z :=
  let k := (Z.log2 (Qnum q) - Z.log2 (Zpos (Qden q)))%Z in
  if Qle_bool (2 ^ k)%Q q then k else (k - 1)%Z.

(** Rounding to IEEE 754 binary64, round-to-nearest-even, the rounding of
    every JavaScript arithmetic operation: a positive number keeps 53
    significant bits, and none below [2 ^ -1074] (the subnormal range).
    The result is in lowest terms. *)
Definition binary64_pos (q : Q) : Q :=
  let e := Z.max (ilog2 q - 52) (-1074) in
  (inject_Z (rne (q / 2 ^ e)) * 2 ^ e)%Q.

Definition binary64 (q : number) : number :=
  Qred match (q ?= 0)%Q with
       | Gt => binary64_pos q
       | Lt => (- binary64_pos (- q))%Q
       | Eq => 0%Q
       end.

(** The rational a finite double denotes, and the double subtraction of
    the kernel's binary64 floats read as a function on such rationals;
    [binary64] is compared with it on sample operands below. *)
Definition denotes (f : float) : number :=
  match Prim2SF f with
  | S754_finite s m e =>
      ((if s then -1 else 1) * inject_Z (Zpos m) * 2 ^ e)%Q
  | _ => 0%Q
  end.

Definition subtractsAs (a b : float) : bool :=
  Qeq_bool (binary64 (denotes a - denotes b)) (denotes (a - b)%float).

(** Conversion of a number to a WebIDL [unsigned long], as performed when
    a number is assigned to [canvas.width] or [canvas.height]: truncate
    towards zero, then reduce modulo 2^32. *)
Definition truncate (q : number) : Z :=
  if Qle_bool 0 q then Qfloor q else Qceiling q.

Definition toUnsignedLong (q : number) : Z := truncate q mod 2 ^ 32.

(** The setter of [canvas.width] and [canvas.height]: these attributes
    reflect an unsigned long limited to the range [0 .. 2^31 - 1], and a
    value outside that range sets the attribute's default instead (300 for
    the width, 150 for the height). *)
Definition canvasDimension (default : Z) (q : number) : Z :=
  let v := toUnsignedLong q in
  if (v <? 2 ^ 31)%Z then v else default.

(** ** Exceptions

    A rejected promise or a thrown exception is [Throw]; [await] and
    sequencing inside a [try] block are the monadic bind. *)

Inductive result (A : Type) : Type :=
| Ok (a : A)
| Throw (e : string).
Arguments Ok {A} a.
Arguments Throw {A} e.

#[global] Instance result_ret : MRet result := λ A a, Ok a.
#[global] Instance result_bind : MBind result := λ A B f m,
  match m with
  | Ok a => f a
  | Throw e => Throw e
  end.

Definition is_Ok {A} (r : result A) : bool :=
  match r with
  | Ok _ => true
  | Throw _ => false
  end.

(** ** The data model *)

Inductive FontSize := small | medium | large.

#[global] Instance FontSize_eq_dec : EqDecision FontSize.
Proof. solve_decision. Defined.

(** [interface Annotation] *)
Module Annotation.
Record t := mk {
  id : string;
  page : nat;
  x : number;
  y : number;
  text : string;
  fontSize : FontSize;
}.
End Annotation.
Abbreviation Annotation := Annotation.t.

Abbreviation ArrayBuffer := (list Byte.byte) (only parsing).

(** A browser [File]: its declared MIME type and what reading it yields
    ([FileReader.readAsArrayBuffer] in [loadPdf], [File.arrayBuffer] in
    [exportPdf]); an unreadable file yields [Throw]. *)
Record File := {
  type : string;
  arrayBuffer : result ArrayBuffer;
}.

Record Size := {
  width : number;
  height : number;
}.

(** *** The DOM elements the component holds references to *)

Module Canvas.
Record t := mk {
  width : Z;
  height : Z;
}.
(** A canvas element is created 300 by 150. *)
Definition fresh : t := {| width := 300; height := 150 |}.
End Canvas.
Abbreviation HTMLCanvasElement := Canvas.t.

Record DOMRect := {
  left : number;
  top : number;
}.

Record HTMLDivElement := {
  getBoundingClientRect : DOMRect;
}.

Record MouseEvent := {
  clientX : number;
  clientY : number;
  (** [(event.target as HTMLElement).closest('.annotation-text')] is not null *)
  target_closest_annotation_text : bool;
}.

(** *** The rendering collaborator (pdf.js) *)

Record PDFPageProxy := {
  (** the dimensions of [page.getViewport({ scale: 1 })]: the page box
      in PDF units, turned by the page's own rotation *)
  view : Size;
  (** the outcome of [page.render(renderContext).promise] *)
  render : result unit;
}.

(** [page.getViewport({ scale })]: the pixel dimensions the rendering
    collaborator reports for a page at a given display scale, that is the
    dimensions at scale 1 multiplied by the scale. *)
Definition getViewport (page : PDFPageProxy) (scale : number) : Size :=
  {| width := width (view page) * scale;
     height := height (view page) * scale |}.

Record PDFDocumentProxy := {
  pdf_numPages : nat;
  (** [pdf.getPage(i)], pages numbered from 1 *)
  getPage : nat → result PDFPageProxy;
}.

(** *** The authoring collaborator (pdf-lib) *)

Record PDFFont := {
  fontName : string;
}.

(** The text object one [page.drawText(text, options)] call adds. *)
Record TextObject := {
  op_text : string;
  op_x : number;
  op_y : number;
  op_font : PDFFont;
  op_size : number;
  op_color : number * number * number;
}.

Record PDFPage := {
  getSize : Size;
  content : list TextObject;
}.

Record PDFDocument := {
  getPages : list PDFPage;
}.

Definition rgb (r g b : number) : number * number * number := (r, g, b).

(** [page.drawText(text, options)] appends one text object to the page's
    content.  The authoring library also encodes the text in the font, and
    throws for a character the font cannot encode; text is taken to be
    encodable here, so results below that a text object is written are
    stated for exports that complete. *)
Definition drawText (page : PDFPage) (op : TextObject) : PDFPage :=
  {| getSize := getSize page; content := content page ++ [op] |}.

(** *** What a handler does to the outside world *)

Inductive Event :=
| alert (msg : string)
| console_error (msg : string)
| decode (bytes : ArrayBuffer)      (* [pdfjsLib.getDocument(typedArray)] *)
| download (filename : string) (blob : ArrayBuffer).

(** ** The component state *)

Record State := {
  pdfFile : option File;
  numPages : nat;
  annotations : list Annotation;
  selectedAnnotation : option string;
  loading : bool;
  hasUnsavedChanges : bool;
  canvasRefs : list (option HTMLCanvasElement);
  annotationContainerRefs : list (option HTMLDivElement);
  (** the ['pdf-annotations'] entry of [localStorage] *)
  localStorage : option (list Annotation);
}.

(** The state of a freshly constructed component, given what the browser
    has stored. *)
Definition initial (stored : option (list Annotation)) : State :=
  {| pdfFile := None; numPages := 0; annotations := [];
     selectedAnnotation := None; loading := false;
     hasUnsavedChanges := false; canvasRefs := [];
     annotationContainerRefs := []; localStorage := stored |}.

Definition setPdfFile (f : option File) (st : State) : State :=
  {| pdfFile := f; numPages := numPages st; annotations := annotations st;
     selectedAnnotation := selectedAnnotation st; loading := loading st;
     hasUnsavedChanges := hasUnsavedChanges st; canvasRefs := canvasRefs st;
     annotationContainerRefs := annotationContainerRefs st;
     localStorage := localStorage st |}.

Definition setNumPages (n : nat) (st : State) : State :=
  {| pdfFile := pdfFile st; numPages := n; annotations := annotations st;
     selectedAnnotation := selectedAnnotation st; loading := loading st;
     hasUnsavedChanges := hasUnsavedChanges st; canvasRefs := canvasRefs st;
     annotationContainerRefs := annotationContainerRefs st;
     localStorage := localStorage st |}.

Definition setSelectedAnnotation (s : option string) (st : State) : State :=
  {| pdfFile := pdfFile st; numPages := numPages st;
     annotations := annotations st;
     selectedAnnotation := s; loading := loading st;
     hasUnsavedChanges := hasUnsavedChanges st; canvasRefs := canvasRefs st;
     annotationContainerRefs := annotationContainerRefs st;
     localStorage := localStorage st |}.

Definition setLoading (b : bool) (st : State) : State :=
  {| pdfFile := pdfFile st; numPages := numPages st;
     annotations := annotations st;
     selectedAnnotation := selectedAnnotation st; loading := b;
     hasUnsavedChanges := hasUnsavedChanges st; canvasRefs := canvasRefs st;
     annotationContainerRefs := annotationContainerRefs st;
     localStorage := localStorage st |}.

Definition setHasUnsavedChanges (b : bool) (st : State) : State :=
  {| pdfFile := pdfFile st; numPages := numPages st;
     annotations := annotations st;
     selectedAnnotation := selectedAnnotation st; loading := loading st;
     hasUnsavedChanges := b; canvasRefs := canvasRefs st;
     annotationContainerRefs := annotationContainerRefs st;
     localStorage := localStorage st |}.

Definition setRefs (cs : list (option HTMLCanvasElement))
    (ds : list (option HTMLDivElement)) (st : State) : State :=
  {| pdfFile := pdfFile st; numPages := numPages st;
     annotations := annotations st;
     selectedAnnotation := selectedAnnotation st; loading := loading st;
     hasUnsavedChanges := hasUnsavedChanges st; canvasRefs := cs;
     annotationContainerRefs := ds;
     localStorage := localStorage st |}.

(** [setAnnotations(l)].  Every caller passes a newly built array, so the
    effect with dependency [[annotations]] runs after each call: it stores
    the set under ['pdf-annotations'] and recomputes [hasUnsavedChanges]. *)
Definition setAnnotations (l : list Annotation) (st : State) : State :=
  {| pdfFile := pdfFile st; numPages := numPages st; annotations := l;
     selectedAnnotation := selectedAnnotation st; loading := loading st;
     hasUnsavedChanges := bool_decide (0 < length l);
     canvasRefs := canvasRefs st;
     annotationContainerRefs := annotationContainerRefs st;
     localStorage := Some l |}.

(** ** The annotation model *)

(** [handleAnnotationChange] *)
Definition handleAnnotationChange (id : string) (newText : string)
    (st : State) : State :=
  setAnnotations
    ((λ ann : Annotation,
        if decide (Annotation.id ann = id)
        then {| Annotation.id := Annotation.id ann;
                Annotation.page := Annotation.page ann;
                Annotation.x := Annotation.x ann;
                Annotation.y := Annotation.y ann;
                Annotation.text := newText;
                Annotation.fontSize := Annotation.fontSize ann |}
        else ann) <$> annotations st) st.

(** [handleDeleteAnnotation] *)
Definition handleDeleteAnnotation (id : string) (st : State) : State :=
  setAnnotations
    (filter (λ ann : Annotation, Annotation.id ann ≠ id) (annotations st)) st.

(** [handleFontSizeChange] *)
Definition handleFontSizeChange (id : string) (size : FontSize)
    (st : State) : State :=
  setAnnotations
    ((λ ann : Annotation,
        if decide (Annotation.id ann = id)
        then {| Annotation.id := Annotation.id ann;
                Annotation.page := Annotation.page ann;
                Annotation.x := Annotation.x ann;
                Annotation.y := Annotation.y ann;
                Annotation.text := Annotation.text ann;
                Annotation.fontSize := size |}
        else ann) <$> annotations st) st.

(** [handlePageClick]; [now] is the value [Date.now()] returns. *)
Definition handlePageClick (pageIndex : nat) (event : MouseEvent) (now : Z)
    (st : State) : State :=
  match mjoin (annotationContainerRefs st !! pageIndex) with
  | None => st
  | Some container =>
      let rect := getBoundingClientRect container in
      if target_closest_annotation_text event then st
      else
        let newAnnotation : Annotation :=
          {| Annotation.id := pretty now;
             Annotation.page := pageIndex;
             Annotation.x := clientX event - left rect;
             Annotation.y := clientY event - top rect;
             Annotation.text := "Type here...";
             Annotation.fontSize := medium |} in
        setSelectedAnnotation (Some (Annotation.id newAnnotation))
          (setAnnotations (annotations st ++ [newAnnotation]) st)
  end.

(** The overlay of page [index]:
    [annotations.filter(ann => ann.page === index)]. *)
Definition forPage (index : nat) (st : State) : list Annotation :=
  filter (λ ann : Annotation, Annotation.page ann = index) (annotations st).

(** The editing chrome of [ann] is displayed:
    [selectedAnnotation === ann.id]. *)
Definition isSelected (st : State) (ann : Annotation) : bool :=
  bool_decide (selectedAnnotation st = Some (Annotation.id ann)).

(** The click on an annotation's own area: [setSelectedAnnotation(ann.id)]. *)
Definition handleAnnotationClick (ann : Annotation) (st : State) : State :=
  setSelectedAnnotation (Some (Annotation.id ann)) st.

(** ** The collaborators

    What lies outside the component: the two PDF libraries, and the
    browser's layout of the page containers. *)
Record Collaborators := {
  (** pdf.js: [pdfjsLib.getDocument(typedArray).promise] *)
  getDocument : ArrayBuffer → result PDFDocumentProxy;
  (** pdf-lib: [PDFDocument.load(bytes)] *)
  PDFDocument_load : ArrayBuffer → result PDFDocument;
  (** pdf-lib: [pdfDoc.embedFont(name)] *)
  embedFont : PDFDocument → string → result PDFFont;
  (** pdf-lib: [pdfDoc.save()] *)
  save : PDFDocument → result ArrayBuffer;
  (** where the browser lays out the container of page [index] *)
  layout : nat → DOMRect;
}.

(** The display scale of the render pipeline: [{ scale: 1.5 }]. *)
Definition scale : number := 1.5.

(** The export point sizes:
    [const fontSizeMap = { small: 10, medium: 14, large: 18 }]. *)
Definition fontSizeMap (size : FontSize) : number :=
  match size with
  | small => 10
  | medium => 14
  | large => 18
  end.

Definition Helvetica : string := "Helvetica".

Section Component.
Variable env : Collaborators.

(** *** React's commit of the page list

    The JSX renders, when [pdfFile] is set, one container and one canvas
    per index below [numPages], and their [ref] callbacks store the
    elements in the two arrays; an element that is no longer rendered has
    its entry set to [null]. *)
Definition mount {A} (n : nat) (fresh : nat → A)
    (refs : list (option A)) : list (option A) :=
  (λ i, if decide (i < n)
        then Some (default (fresh i) (mjoin (refs !! i)))
        else None) <$> seq 0 (n `max` length refs).

Definition commit (st : State) : State :=
  let n := match pdfFile st with
           | Some _ => numPages st
           | None => 0
           end in
  setRefs (mount n (λ _, Canvas.fresh) (canvasRefs st))
          (mount n (λ i, {| getBoundingClientRect := layout env i |})
             (annotationContainerRefs st)) st.

(** *** The render pipeline *)

(** The body of [for (let i = 1; i <= pdf.numPages; i++)], over the
    remaining values of [i].  A canvas that is mounted yields its 2d
    context ([getContext('2d')] is not null for a canvas used only here);
    a page without a mounted canvas is passed over. *)
Fixpoint renderPages (pdf : PDFDocumentProxy) (indices : list nat)
    (canvases : list (option HTMLCanvasElement))
    : list (option HTMLCanvasElement) * result unit :=
  match indices with
  | [] => (canvases, Ok ())
  | i :: rest =>
      match getPage pdf i with
      | Throw e => (canvases, Throw e)
      | Ok page =>
          let viewport := getViewport page scale in
          match mjoin (canvases !! (i - 1)) with
          | Some canvas =>
              let canvas' :=
                {| Canvas.height :=
                     canvasDimension (Canvas.height Canvas.fresh)
                       (height viewport);
                   Canvas.width :=
                     canvasDimension (Canvas.width Canvas.fresh)
                       (width viewport) |} in
              let canvases' := <[i - 1 := Some canvas']> canvases in
              match render page with
              | Throw e => (canvases', Throw e)
              | Ok _ => renderPages pdf rest canvases'
              end
          | None => renderPages pdf rest canvases
          end
      end
  end.

(** The [try] block of [loadPdf]: the state it leaves, its trace and
    whether it completed.

    Two choices of this model concern the ref arrays only.  The commit of
    the new page list is placed at the first [await] after [setNumPages];
    React may also commit after [getPage] has resolved, in which case
    [if (canvas)] passes the page over.  And the entries past the page
    count, which the ref callbacks of unmounted elements write back as
    [null] after the two [slice] calls, are left out: every read of the
    arrays goes through [mjoin (refs !! i)], which does not tell a [null]
    entry from a missing one.  The results below about [loadPdf] speak of
    the state cells and the trace, which do not depend on either. *)
Definition loadPdf_try (file : File) (st : State)
    : State * list Event * result unit :=
  match arrayBuffer file with
  | Throw e => (st, [], Throw e)
  | Ok typedArray =>
      match getDocument env typedArray with
      | Throw e => (st, [decode typedArray], Throw e)
      | Ok pdf =>
          let n := pdf_numPages pdf in
          let st1 := setNumPages n st in
          let st2 := setRefs (take n (canvasRefs st1))
                       (take n (annotationContainerRefs st1)) st1 in
          let st3 := commit st2 in
          let '(canvases, r) := renderPages pdf (seq 1 n) (canvasRefs st3) in
          (setRefs canvases (annotationContainerRefs st3) st3,
           [decode typedArray], r)
      end
  end.

(** [loadPdf] *)
Definition loadPdf (file : File) (st : State) : State * list Event :=
  let '(st1, log, r) := loadPdf_try file st in
  match r with
  | Ok _ => (st1, log)
  | Throw e =>
      (commit (setPdfFile None st1),
       log ++ [console_error "Error loading PDF:";
               alert "Failed to load PDF. The file may be corrupted or invalid."])
  end.

(** [handleFileChange]; [file] is [event.target.files?.[0]]. *)
Definition handleFileChange (file : option File) (st : State)
    : State * list Event :=
  match file with
  | Some f =>
      if decide (type f = "application/pdf") then
        let st1 := setLoading true st in
        let st2 := setPdfFile (Some f) st1 in
        let st3 := setAnnotations [] st2 in
        let '(st4, log) := loadPdf f st3 in
        (setLoading false st4, log)
      else (st, [alert "Please select a valid PDF file."])
  | None => (st, [alert "Please select a valid PDF file."])
  end.

(** *** The exporter *)

(** The body of [for (const ann of annotations)].  The pages of the
    array are the page objects of the document, so drawing on
    [pages[ann.page]] updates the document's page in place; reading
    [getSize] of a missing page throws a [TypeError]. *)
Definition drawAnnotation (helveticaFont : PDFFont) (pages : list PDFPage)
    (ann : Annotation) : result (list PDFPage) :=
  match pages !! Annotation.page ann with
  | None => Throw "TypeError: page is undefined"
  | Some page =>
      let height := height (getSize page) in
      let y := binary64 (height - Annotation.y ann) in
      Ok (<[Annotation.page ann :=
              drawText page
                {| op_text := Annotation.text ann;
                   op_x := Annotation.x ann;
                   op_y := y;
                   op_font := helveticaFont;
                   op_size := fontSizeMap (Annotation.fontSize ann);
                   op_color := rgb 0 0 0 |}]> pages)
  end.

Fixpoint drawAnnotations (helveticaFont : PDFFont)
    (annotations : list Annotation) (pages : list PDFPage)
    : result (list PDFPage) :=
  match annotations with
  | [] => Ok pages
  | ann :: rest =>
      pages' ← drawAnnotation helveticaFont pages ann;
      drawAnnotations helveticaFont rest pages'
  end.

(** The [try] block of [exportPdf] up to [pdfDoc.save()]: the bytes
    offered for download. *)
Definition exportPdf_try (pdfFile : File) (annotations : list Annotation)
    : result ArrayBuffer :=
  existingPdfBytes ← arrayBuffer pdfFile;
  pdfDoc ← PDFDocument_load env existingPdfBytes;
  helveticaFont ← embedFont env pdfDoc Helvetica;
  pages ← drawAnnotations helveticaFont annotations (getPages pdfDoc);
  save env {| getPages := pages |}.

(** [exportPdf] *)
Definition exportPdf (st : State) : State * list Event :=
  match pdfFile st with
  | None => (st, [alert "No PDF file loaded!"])
  | Some file =>
      let st1 := setLoading true st in
      let '(st2, log) :=
        match exportPdf_try file (annotations st1) with
        | Ok pdfBytes =>
            (setHasUnsavedChanges false st1, [download "edited.pdf" pdfBytes])
        | Throw e =>
            (st1, [console_error "Failed to export PDF:";
                   alert "An error occurred while exporting the PDF."])
        end in
      (setLoading false st2, log)
  end.

End Component.

(** ** Vocabulary of the statements *)

(** The two replacements [{ ...ann, text: newText }] and
    [{ ...ann, fontSize: size }]. *)
Definition withText (newText : string) (ann : Annotation) : Annotation :=
  {| Annotation.id := Annotation.id ann;
     Annotation.page := Annotation.page ann;
     Annotation.x := Annotation.x ann;
     Annotation.y := Annotation.y ann;
     Annotation.text := newText;
     Annotation.fontSize := Annotation.fontSize ann |}.

Definition withFontSize (size : FontSize) (ann : Annotation) : Annotation :=
  {| Annotation.id := Annotation.id ann;
     Annotation.page := Annotation.page ann;
     Annotation.x := Annotation.x ann;
     Annotation.y := Annotation.y ann;
     Annotation.text := Annotation.text ann;
     Annotation.fontSize := size |}.

Definition ids (st : State) : list string := Annotation.id <$> annotations st.


(** The text object the export loop draws for [ann] on a page of height
    [pageHeight]: the argument of [page.drawText] in [exportPdf]. *)
Definition textObject (helveticaFont : PDFFont) (pageHeight : number)
    (ann : Annotation) : TextObject :=
  {| op_text := Annotation.text ann;
     op_x := Annotation.x ann;
     op_y := binary64 (pageHeight - Annotation.y ann);
     op_font := helveticaFont;
     op_size := fontSizeMap (Annotation.fontSize ann);
     op_color := rgb 0 0 0 |}.

(** The transform as the specification words it for a display scale [s]:
    the screen offsets are divided by the scale, then y is flipped. *)
Definition specTransform (s : number) (pdfHeight : number)
    (ann : Annotation) : number * number :=
  (Annotation.x ann / s, pdfHeight - Annotation.y ann / s)%Q.

(** The export of a state without its text-drawing loop: load the
    document afresh, embed the font, save. *)
Definition resave (env : Collaborators) (file : File) : result ArrayBuffer :=
  existingPdfBytes ← arrayBuffer file;
  pdfDoc ← PDFDocument_load env existingPdfBytes;
  helveticaFont ← embedFont env pdfDoc Helvetica;
  save env {| getPages := getPages pdfDoc |}.

(** The state [handleFileChange] has reached when it calls [loadPdf]:
    after [setLoading(true)], [setPdfFile(file)] and [setAnnotations([])]. *)
Definition beforeLoad (file : File) (st : State) : State :=
  setAnnotations [] (setPdfFile (Some file) (setLoading true st)).

Definition loadFailed : Event :=
  alert "Failed to load PDF. The file may be corrupted or invalid.".

Definition rejected : Event := alert "Please select a valid PDF file.".

Definition isDownload (e : Event) : bool :=
  match e with
  | download _ _ => true
  | _ => false
  end.

Definition isDecode (e : Event) : bool :=
  match e with
  | decode _ => true
  | _ => false
  end.

(** ** A concrete setting

    Collaborators for a toy document format, used to run the component on
    explicit inputs: every byte of a file is one US Letter page (612 by
    792 PDF units), a byte [0xff] is a page whose rendering fails, and the
    empty file does not decode. *)
Module Demo.

Definition letter : Size := {| width := 612; height := 792 |}.

Definition pageProxy (b : Byte.byte) : PDFPageProxy :=
  {| view := letter;
     render := if Byte.eqb b Byte.xff then Throw "render failed" else Ok () |}.

Definition documentProxy (bytes : ArrayBuffer) : PDFDocumentProxy :=
  {| pdf_numPages := length bytes;
     getPage i :=
       match i with
       | 0 => Throw "Invalid page request"
       | S j =>
           match bytes !! j with
           | Some b => Ok (pageProxy b)
           | None => Throw "Invalid page request"
           end
       end |}.

Definition blankPage : PDFPage := {| getSize := letter; content := [] |}.

Definition serialize (page : PDFPage) : ArrayBuffer :=
  Byte.x50 :: ((λ _, Byte.x54) <$> content page).

Definition env : Collaborators :=
  {| getDocument bytes :=
       match bytes with
       | [] => Throw "InvalidPDFException"
       | _ => Ok (documentProxy bytes)
       end;
     PDFDocument_load bytes :=
       match bytes with
       | [] => Throw "Failed to parse PDF document"
       | _ => Ok {| getPages := (λ _, blankPage) <$> bytes |}
       end;
     embedFont _ name := Ok {| fontName := name |};
     save doc := Ok (mjoin (serialize <$> getPages doc));
     layout i := {| left := 8; top := 100 + 1204 * inject_Z (Z.of_nat i) |} |}.

Definition file (bytes : ArrayBuffer) : File :=
  {| type := "application/pdf"; arrayBuffer := Ok bytes |}.

(** A one-page and a two-page document, a document whose second page
    fails to render, and a text file. *)
Definition onePage : File := file [Byte.x00].
Definition twoPages : File := file [Byte.x00; Byte.x00].
Definition brokenPage : File := file [Byte.x00; Byte.xff].
Definition notes : File :=
  {| type := "text/plain"; arrayBuffer := Ok [Byte.x68; Byte.x69] |}.

Definition open (f : File) : State :=
  (handleFileChange env (Some f) (initial None)).1.

(** A click at client position [(cx, cy)] outside any annotation. *)
Definition click (cx cy : number) : MouseEvent :=
  {| clientX := cx; clientY := cy;
     target_closest_annotation_text := false |}.

Definition font : PDFFont := {| fontName := Helvetica |}.

(** An annotation at screen offset [(x, y)] of page [p]. *)
Definition note (id : string) (p : nat) (x y : number) : Annotation :=
  {| Annotation.id := id; Annotation.page := p;
     Annotation.x := x; Annotation.y := y;
     Annotation.text := "Type here..."; Annotation.fontSize := medium |}.

(** One click on the one-page document, at client position (158, 250):
    offset (150, 150) of the page container. *)
Definition placed : State :=
  handlePageClick 0 (click 158 250) 1700000000000 (open onePage).

Definition fivePages : File :=
  file [Byte.x00; Byte.x00; Byte.x00; Byte.x00; Byte.x00].

(** A state whose set names a page the open document does not have.  A
    five-page document is open and the one-page document is chosen; while
    it loads, the five page containers are still mounted and a click
    event reaches the last one ([handlePageClick] does not look at
    [loading]); after the load a click falls on the only page of the new
    document. *)
Definition staleClick : State :=
  let st1 := open fivePages in
  let st2 := beforeLoad onePage st1 in
  let st3 := handlePageClick 4 (click 158 5000) 1700000000000 st2 in
  let st4 := setLoading false (loadPdf env onePage st3).1 in
  handlePageClick 0 (click 58 200) 1700000005000 st4.

End Demo.

(** ** The rest of the component: effects, unload guard, rendering *)

(** The effect with dependency [[annotations]]:
    [localStorage.setItem('pdf-annotations', JSON.stringify(annotations))]
    and [setHasUnsavedChanges(annotations.length > 0)]. *)
Definition persistEffect (st : State) : State :=
  {| pdfFile := pdfFile st; numPages := numPages st;
     annotations := annotations st;
     selectedAnnotation := selectedAnnotation st; loading := loading st;
     hasUnsavedChanges := bool_decide (0 < length (annotations st));
     canvasRefs := canvasRefs st;
     annotationContainerRefs := annotationContainerRefs st;
     localStorage := Some (annotations st) |}.

(** The effects of the first render, in the order they are declared.  The
    first reads the stored set before the second overwrites it with the
    (still empty) set of the first render; when a non-empty set was read,
    the queued [setAnnotations(parsedAnnotations)] causes a second render,
    after which the second effect runs again. *)
Definition mountEffects (st : State) : State :=
  let savedAnnotations := localStorage st in
  let st1 := persistEffect st in
  match savedAnnotations with
  | Some parsedAnnotations =>
      if bool_decide (0 < length parsedAnnotations)
      then setAnnotations parsedAnnotations st1
      else st1
  | None => st1
  end.

(** The component once mounted, given what the browser has stored. *)
Definition mounted (stored : option (list Annotation)) : State :=
  mountEffects (initial stored).

(** [handleBeforeUnload]: what the handler registered for the current
    value of [hasUnsavedChanges] does to the event. *)
Record BeforeUnloadEvent := {
  defaultPrevented : bool;
  returnValue : option string;
}.

Definition handleBeforeUnload (st : State) (event : BeforeUnloadEvent)
    : BeforeUnloadEvent :=
  if hasUnsavedChanges st
  then {| defaultPrevented := true; returnValue := Some EmptyString |}
  else event.

(** The page list of the JSX: with a file set, one overlay per index
    below [numPages], holding the annotations of that page; without a
    file, the placeholder and no overlay. *)
Definition overlays (st : State) : list (list Annotation) :=
  match pdfFile st with
  | Some _ => (λ index, forPage index st) <$> seq 0 (numPages st)
  | None => []
  end.

(** ** Sessions

    The handlers a user action invokes.  [ChooseFile] and [Download] run
    their handler from its call to its return.  A user event can also
    arrive while such a handler is suspended at an [await]; the last four
    actions are the two halves of these handlers, split at their first
    [await], between which other actions can be placed.
    [StartFileChange] is [handleFileChange] up to
    [await file.arrayBuffer()] in [loadPdf], and [FinishFileChange] the
    rest of it, on the state the component has by then.  [StartDownload]
    is [exportPdf] up to [await pdfFile.arrayBuffer()], and
    [FinishDownload] the rest of it, on the file and the annotation set
    its closure captured when the handler was called. *)
Inductive Action :=
| ChooseFile (file : option File)
| ClickPage (pageIndex : nat) (event : MouseEvent) (now : Z)
| ClickAnnotation (ann : Annotation)
| EditText (id : string) (newText : string)
| ChangeFontSize (id : string) (size : FontSize)
| Delete (id : string)
| Download
| StartFileChange (file : option File)
| FinishFileChange (file : File)
| StartDownload
| FinishDownload (pdfFile : File) (annotations : list Annotation).

Definition perform (env : Collaborators) (a : Action) (st : State) : State :=
  match a with
  | ChooseFile file => (handleFileChange env file st).1
  | ClickPage pageIndex event now => handlePageClick pageIndex event now st
  | ClickAnnotation ann => handleAnnotationClick ann st
  | EditText id newText => handleAnnotationChange id newText st
  | ChangeFontSize id size => handleFontSizeChange id size st
  | Delete id => handleDeleteAnnotation id st
  | Download => (exportPdf env st).1
  | StartFileChange file =>
      match file with
      | Some f =>
          if decide (type f = "application/pdf") then beforeLoad f st else st
      | None => st
      end
  | FinishFileChange file => setLoading false (loadPdf env file st).1
  | StartDownload =>
      match pdfFile st with
      | Some _ => setLoading true st
      | None => st
      end
  | FinishDownload pdfFile annotations =>
      setLoading false
        match exportPdf_try env pdfFile annotations with
        | Ok _ => setHasUnsavedChanges false st
        | Throw _ => st
        end
  end.

Definition run (env : Collaborators) (actions : list Action) (st : State)
    : State :=
  foldl (λ st a, perform env a st) st actions.

(** What every state of a session satisfies: the stored set is the
    annotation set, and the unsaved-changes flag is raised only over a
    set that is not empty. *)
Definition consistent (st : State) : Prop :=
  localStorage st = Some (annotations st) ∧
  (hasUnsavedChanges st = true → annotations st ≠ []).

(** Explicit runs, over the toy collaborators. *)
Module Session.

(** Open the two-page document, click twice on page 1 and once on page
    0, at distinct clock readings. *)
Definition threeNotes : list Action :=
  [ChooseFile (Some Demo.twoPages);
   ClickPage 1 (Demo.click 108 1504) 1700000000000;
   ClickPage 0 (Demo.click 58 200) 1700000001000;
   ClickPage 1 (Demo.click 208 1404) 1700000002000].

Definition edited : State := run Demo.env threeNotes (mounted None).

(** With the five-page document displayed, choose the one-page
    document and click on page 4 before the loader resumes. *)
Definition clickDuringLoad : list Action :=
  [ChooseFile (Some Demo.fivePages);
   StartFileChange (Some Demo.onePage);
   ClickPage 4 (Demo.click 108 5000) 1700000003000;
   FinishFileChange Demo.onePage].

(** A set left in the browser's storage by an earlier visit. *)
Definition leftover : list Annotation :=
  [Demo.note "1600000000000" 3 20 30].

End Session.
(** ** Properties of the annotation model *)

Section AnnotationModel.
Implicit Types (st : State) (ann : Annotation) (id : string).

Lemma map_unknown_id (f : Annotation → Annotation) id
    (l : list Annotation) :
  (∀ ann, ann ∈ l → Annotation.id ann ≠ id) →
  (λ ann, if decide (Annotation.id ann = id) then f ann else ann) <$> l = l.
Proof.
  induction l as [|a l IH]; intros Hl; [done|].
  cbn. rewrite decide_False by (apply Hl; left).
  f_equal. apply IH. intros b Hb. apply Hl. by right.
Qed.

Lemma filter_unknown_id id (l : list Annotation) :
  (∀ ann, ann ∈ l → Annotation.id ann ≠ id) →
  filter (λ ann, Annotation.id ann ≠ id) l = l.
Proof.
  induction l as [|a l IH]; intros Hl; [done|].
  rewrite filter_cons_True by (apply Hl; left).
  f_equal. apply IH. intros b Hb. apply Hl. by right.
Qed.

(** C9.  [updateText] ([handleAnnotationChange]) replaces only the text
    and [updateFontSize] ([handleFontSizeChange]) only the font size of
    the annotations whose id matches: the set keeps its length and order,
    an annotation with another id is untouched, a matching one keeps its
    id, page, x and y (and the field the operation does not address),
    the selection and the document are untouched, and for an id that is
    not in the set the annotation set is unchanged. *)
Theorem update_frame id (newText : string) (size : FontSize) st :
  let st1 := handleAnnotationChange id newText st in
  let st2 := handleFontSizeChange id size st in
  (∀ i ann, annotations st !! i = Some ann →
     (Annotation.id ann ≠ id →
        annotations st1 !! i = Some ann ∧ annotations st2 !! i = Some ann) ∧
     (Annotation.id ann = id →
        annotations st1 !! i = Some (withText newText ann) ∧
        annotations st2 !! i = Some (withFontSize size ann))) ∧
  length (annotations st1) = length (annotations st) ∧
  length (annotations st2) = length (annotations st) ∧
  selectedAnnotation st1 = selectedAnnotation st ∧
  selectedAnnotation st2 = selectedAnnotation st ∧
  (pdfFile st1, numPages st1) = (pdfFile st, numPages st) ∧
  (pdfFile st2, numPages st2) = (pdfFile st, numPages st) ∧
  ((∀ ann, ann ∈ annotations st → Annotation.id ann ≠ id) →
     annotations st1 = annotations st ∧ annotations st2 = annotations st).
Proof.
  cbn. split; [|repeat split].
  - intros i ann Hi.
    split; intros Hid; rewrite !list_lookup_fmap, Hi; cbn.
    + by rewrite !decide_False.
    + by rewrite !decide_True.
  - apply length_fmap.
  - apply length_fmap.
  - by apply map_unknown_id.
  - by apply map_unknown_id.
Qed.

(** C5, as the code has it.  [remove] ([handleDeleteAnnotation]) keeps
    exactly the annotations whose id differs, in their order, and leaves
    the selection pointer as it was: when the removed annotation was the
    selected one the pointer still holds its id, which no remaining
    annotation carries, so no editing chrome is displayed.  For an id
    that is not in the set the annotation set is unchanged. *)
Theorem remove_spec id st :
  let st' := handleDeleteAnnotation id st in
  (∀ ann, ann ∈ annotations st' ↔
          ann ∈ annotations st ∧ Annotation.id ann ≠ id) ∧
  annotations st' `sublist_of` annotations st ∧
  selectedAnnotation st' = selectedAnnotation st ∧
  (selectedAnnotation st = Some id →
     ∀ ann, ann ∈ annotations st' → isSelected st' ann = false) ∧
  (pdfFile st', numPages st') = (pdfFile st, numPages st) ∧
  ((∀ ann, ann ∈ annotations st → Annotation.id ann ≠ id) →
     annotations st' = annotations st).
Proof.
  cbn. split_and!; [| |done| |done|].
  - intros ann. by rewrite list_elem_of_filter, (comm and).
  - apply sublist_filter.
  - intros Hsel ann [Hid _]%list_elem_of_filter.
    unfold isSelected. cbn. rewrite Hsel.
    apply bool_decide_eq_false. congruence.
  - apply filter_unknown_id.
Qed.


End AnnotationModel.

(** ** Rounding to binary64 *)

Section Rounding.
Local Open Scope Q_scope.

Lemma rne_bounds q : inject_Z (Qfloor q) <= q -> q < inject_Z (Qfloor q + 1) ->
  (Qfloor q <= rne q <= Qfloor q + 1)%Z.
Proof.
  intros _ _. unfold rne. cbv zeta.
  destruct (q - inject_Z (Qfloor q) ?= 1 # 2); [destruct (Z.even _)| |]; lia.
Qed.

Lemma rne_floor_le q : (Qfloor q <= rne q)%Z.
Proof. apply rne_bounds; [apply Qfloor_le|apply Qlt_floor]. Qed.

Lemma rne_le_floor_succ q : (rne q <= Qfloor q + 1)%Z.
Proof. apply rne_bounds; [apply Qfloor_le|apply Qlt_floor]. Qed.

Lemma rne_mono x y : x <= y -> (rne x <= rne y)%Z.
Proof.
  intros Hxy. pose proof (Qfloor_resp_le _ _ Hxy) as Hfl.
  destruct (Z.eq_dec (Qfloor x) (Qfloor y)) as [Heq|Hne].
  - unfold rne. cbv zeta. rewrite Heq.
    destruct (Qcompare_spec (x - inject_Z (Qfloor y)) (1 # 2)) as [Hx|Hx|Hx];
    destruct (Qcompare_spec (y - inject_Z (Qfloor y)) (1 # 2)) as [Hy|Hy|Hy];
    try (destruct (Z.even (Qfloor y))); try lia; exfalso; lra.
  - pose proof (rne_le_floor_succ x). pose proof (rne_floor_le y). lia.
Qed.

Lemma rne_inject (n : Z) : rne (inject_Z n) = n.
Proof.
  unfold rne. cbv zeta. rewrite Qfloor_Z.
  destruct (Qcompare_spec (inject_Z n - inject_Z n) (1 # 2)) as [H|H|H];
    try reflexivity; exfalso; lra.
Qed.


Lemma two_pow_pos (z : Z) : 0 < 2 ^ z.
Proof. apply Qpower_0_lt. reflexivity. Qed.

Lemma two_pow_succ (z : Z) : 2 ^ (z + 1) == 2 * 2 ^ z.
Proof. rewrite Qpower_plus by discriminate. change (2 ^ 1) with 2. ring. Qed.

Lemma two_pow_Z (a : Z) : (0 <= a)%Z -> inject_Z (2 ^ a) == 2 ^ a.
Proof. intros Ha. rewrite Zpower_Qpower by exact Ha. reflexivity. Qed.

Lemma ilog2_spec q : 0 < q -> 2 ^ ilog2 q <= q /\ q < 2 ^ (ilog2 q + 1).
Proof.
  intros Hq. destruct q as [n d]. unfold ilog2. cbn [Qnum Qden].
  assert (Hn : (0 < n)%Z).
  { unfold Qlt in Hq. cbn in Hq. lia. }
  set (a := Z.log2 n). set (b := Z.log2 (Z.pos d)).
  destruct (Z.log2_spec n Hn) as [Ha1 Ha2]. fold a in Ha1, Ha2.
  destruct (Z.log2_spec (Z.pos d) (Pos2Z.is_pos d)) as [Hb1 Hb2].
  fold b in Hb1, Hb2.
  assert (Ha0 : (0 <= a)%Z) by apply Z.log2_nonneg.
  assert (Hb0 : (0 <= b)%Z) by apply Z.log2_nonneg.
  set (k := (a - b)%Z).
  assert (Hk : 2 ^ k * 2 ^ b == 2 ^ a).
  { rewrite <-Qpower_plus by discriminate. replace (k + b)%Z with a by lia.
    reflexivity. }
  pose proof (two_pow_pos k) as Hkpos. pose proof (two_pow_pos b) as Hbpos.
  assert (HN1 : 2 ^ a <= inject_Z n).
  { rewrite <-two_pow_Z by exact Ha0. rewrite <-Zle_Qle. exact Ha1. }
  assert (HN2 : inject_Z n < 2 * 2 ^ a).
  { rewrite <-two_pow_succ, <-two_pow_Z by lia. rewrite <-Zlt_Qlt.
    replace (a + 1)%Z with (Z.succ a) by lia. exact Ha2. }
  assert (HD1 : 2 ^ b <= inject_Z (Z.pos d)).
  { rewrite <-two_pow_Z by exact Hb0. rewrite <-Zle_Qle. exact Hb1. }
  assert (HD2 : inject_Z (Z.pos d) < 2 * 2 ^ b).
  { rewrite <-two_pow_succ, <-two_pow_Z by lia. rewrite <-Zlt_Qlt.
    replace (b + 1)%Z with (Z.succ b) by lia. exact Hb2. }
  assert (Hqd : (n # d) * inject_Z (Z.pos d) == inject_Z n).
  { rewrite (Qmake_Qdiv n d). field. discriminate. }
  set (q := n # d) in *. set (N := inject_Z n) in *.
  set (D := inject_Z (Z.pos d)) in *.
  set (Pk := 2 ^ k) in *. set (Pb := 2 ^ b) in *. set (Pa := 2 ^ a) in *.
  assert (Hupper : q < 2 * Pk) by nra.
  assert (Hlower : Pk < 2 * q) by nra.
  destruct (Qle_bool Pk q) eqn:Hle.
  - apply Qle_bool_iff in Hle. split; [exact Hle|].
    unfold Pk in *. rewrite two_pow_succ. exact Hupper.
  - assert (Hlt : q < Pk).
    { apply Qnot_le_lt. intros H. apply Qle_bool_iff in H. congruence. }
    replace (k - 1 + 1)%Z with k by lia. split; [|exact Hlt].
    assert (Hhalf : 2 * 2 ^ (k - 1) == Pk).
    { unfold Pk. rewrite <-two_pow_succ. replace (k - 1 + 1)%Z with k by lia.
      reflexivity. }
    lra.
Qed.

Lemma ilog2_mono x y : 0 < x -> x <= y -> (ilog2 x <= ilog2 y)%Z.
Proof.
  intros Hx Hxy. assert (Hy : 0 < y) by lra.
  destruct (ilog2_spec x Hx) as [Hx1 _].
  destruct (ilog2_spec y Hy) as [_ Hy2].
  destruct (Z.le_gt_cases (ilog2 x) (ilog2 y)) as [Hle|Hgt]; [exact Hle|].
  exfalso.
  assert (Hpow : 2 ^ (ilog2 y + 1) <= 2 ^ ilog2 x).
  { apply Qpower_le_compat_l; [lia|lra]. }
  lra.
Qed.

Lemma div_two_pow_le x y (e : Z) : x <= y -> x / 2 ^ e <= y / 2 ^ e.
Proof.
  intros Hxy. apply Qmult_le_compat_r; [exact Hxy|].
  apply Qlt_le_weak, Qinv_lt_0_compat, two_pow_pos.
Qed.

Lemma div_two_pow_mul q (e : Z) : q / 2 ^ e * 2 ^ e == q.
Proof. field. pose proof (two_pow_pos e). lra. Qed.

Lemma binary64_pos_nonneg q : 0 < q -> 0 <= binary64_pos q.
Proof.
  intros Hq. unfold binary64_pos. cbv zeta.
  set (e := Z.max (ilog2 q - 52) (-1074)).
  pose proof (two_pow_pos e) as He.
  assert (H0 : (0 <= rne (q / 2 ^ e))%Z).
  { rewrite <-(rne_inject 0). apply rne_mono.
    pose proof (div_two_pow_mul q e). change (inject_Z 0) with 0.
    apply Qlt_le_weak, Qlt_shift_div_l; lra. }
  rewrite Zle_Qle in H0. change (inject_Z 0) with 0 in H0. nra.
Qed.

Lemma binary64_pos_mono x y : 0 < x -> x <= y ->
  binary64_pos x <= binary64_pos y.
Proof.
  intros Hx Hxy. assert (Hy : 0 < y) by lra.
  pose proof (ilog2_mono x y Hx Hxy) as Hlog.
  unfold binary64_pos. cbv zeta.
  set (ex := Z.max (ilog2 x - 52) (-1074)).
  set (ey := Z.max (ilog2 y - 52) (-1074)).
  assert (Hexy : (ex <= ey)%Z) by lia.
  pose proof (two_pow_pos ex) as Hpx. pose proof (two_pow_pos ey) as Hpy.
  destruct (Z.eq_dec ex ey) as [Heq|Hne].
  - rewrite Heq.
    pose proof (rne_mono _ _ (div_two_pow_le x y ey Hxy)) as Hr.
    rewrite Zle_Qle in Hr. nra.
  - assert (Hlt : (ex < ey)%Z) by lia.
    destruct (ilog2_spec x Hx) as [_ Hx2].
    destruct (ilog2_spec y Hy) as [Hy1 _].
    (* the rounded significand of x is at most 2^53 *)
    assert (H53 : inject_Z (2 ^ 53) == 2 ^ 53) by (apply two_pow_Z; lia).
    assert (H52 : inject_Z (2 ^ 52) == 2 ^ 52) by (apply two_pow_Z; lia).
    assert (Hmx : inject_Z (rne (x / 2 ^ ex)) <= 2 ^ 53).
    { rewrite <-H53. rewrite <-Zle_Qle.
      rewrite <-(rne_inject (2 ^ 53)). apply rne_mono.
      rewrite H53.
      apply Qle_shift_div_r; [exact Hpx|].
      rewrite <-Qpower_plus by discriminate.
      apply Qle_trans with (2 ^ (ilog2 x + 1)); [lra|].
      apply Qpower_le_compat_l; [lia|lra]. }
    (* the rounded significand of y is at least 2^52 *)
    assert (Hmy : 2 ^ 52 <= inject_Z (rne (y / 2 ^ ey))).
    { rewrite <-H52. rewrite <-Zle_Qle.
      rewrite <-(rne_inject (2 ^ 52)). apply rne_mono.
      rewrite H52.
      apply Qle_shift_div_l; [exact Hpy|].
      rewrite <-Qpower_plus by discriminate.
      apply Qle_trans with (2 ^ ilog2 y); [|exact Hy1].
      apply Qpower_le_compat_l; [lia|lra]. }
    assert (Hstep : 2 ^ 53 * 2 ^ ex <= 2 ^ 52 * 2 ^ ey).
    { rewrite <-!Qpower_plus by discriminate.
      apply Qpower_le_compat_l; [lia|lra]. }
    apply Qle_trans with (2 ^ 53 * 2 ^ ex).
    + apply Qmult_le_compat_r; [exact Hmx|lra].
    + apply Qle_trans with (2 ^ 52 * 2 ^ ey); [exact Hstep|].
      apply Qmult_le_compat_r; [exact Hmy|lra].
Qed.

Lemma binary64_mono x y : x <= y -> binary64 x <= binary64 y.
Proof.
  intros Hxy. unfold binary64. rewrite !Qred_correct.
  destruct (Qcompare_spec x 0) as [Hx|Hx|Hx];
  destruct (Qcompare_spec y 0) as [Hy|Hy|Hy]; try (exfalso; lra).
  - lra.
  - pose proof (binary64_pos_nonneg y Hy). lra.
  - assert (H : 0 < - x) by lra. pose proof (binary64_pos_nonneg _ H). lra.
  - assert (H : 0 < - y) by lra.
    assert (H' : - y <= - x) by lra.
    pose proof (binary64_pos_mono _ _ H H'). lra.
  - assert (H : 0 < - x) by lra. pose proof (binary64_pos_nonneg _ H).
    pose proof (binary64_pos_nonneg y Hy). lra.
  - apply binary64_pos_mono; assumption.
Qed.

(** On sample operands (page heights and offsets, the two offsets of the
    rounding collision, a difference in the subnormal range, operands of
    unlike magnitude and sign) [binary64] of the exact difference is the
    difference the floating-point unit returns. *)
Example binary64_is_double_subtraction :
  forallb (λ ab, subtractsAs ab.1 ab.2)
    [(792, 150); (792, 0); (792, 1188);
     (0x1.9066666666666p+6, 100); (0x1.9066666666667p+6, 100);
     (792, 0x1.99999999998p-4); (792, 0x1.9999999999cp-4);
     (0x1.a4f1eb851eb85p+9, 0x1.8b0a3d70a3d71p+3);
     (0x1p-1070, 0x1.8p-1072); (0x1p+300, 0x1p-300);
     (-0x1.6p+2, 0x1.2p+1); (0x1.fffffffffffffp+52, 0x1p-1)]%float
  = true.
Proof. vm_compute. reflexivity. Qed.

Lemma binary64_proper x y : x == y -> binary64 x == binary64 y.
Proof.
  intros Hxy. apply Qle_antisym; apply binary64_mono; rewrite Hxy;
    apply Qle_refl.
Qed.

End Rounding.

(** ** Properties of the exporter *)

Section Exporter.
Implicit Types (st : State) (ann : Annotation) (pages : list PDFPage).
Implicit Types (font : PDFFont) (pg : PDFPage).

(** One round of the export loop, with the drawn text object named. *)
Lemma drawAnnotation_eq font pages ann :
  drawAnnotation font pages ann =
    match pages !! Annotation.page ann with
    | None => Throw "TypeError: page is undefined"
    | Some pg =>
        Ok (<[Annotation.page ann :=
                drawText pg (textObject font (height (getSize pg)) ann)]>
              pages)
    end.
Proof. reflexivity. Qed.

Lemma drawAnnotation_Ok font pages ann pg :
  pages !! Annotation.page ann = Some pg →
  drawAnnotation font pages ann =
    Ok (<[Annotation.page ann :=
            drawText pg (textObject font (height (getSize pg)) ann)]> pages).
Proof. intros Hpg. by rewrite drawAnnotation_eq, Hpg. Qed.

Lemma drawAnnotation_Throw font pages ann :
  length pages ≤ Annotation.page ann →
  drawAnnotation font pages ann = Throw "TypeError: page is undefined".
Proof.
  intros Hge. rewrite drawAnnotation_eq.
  by rewrite (lookup_ge_None_2 pages (Annotation.page ann)).
Qed.

(** The loop draws, on every page, the text objects of the annotations
    of that page, in the order of the set, after what the page held. *)
Lemma drawAnnotations_content font (anns : list Annotation) pages pages' :
  drawAnnotations font anns pages = Ok pages' →
  ∀ p pg, pages !! p = Some pg →
    ∃ pg', pages' !! p = Some pg' ∧ getSize pg' = getSize pg ∧
      content pg' =
        content pg ++
        (textObject font (height (getSize pg)) <$>
           filter (λ ann, Annotation.page ann = p) anns).
Proof.
  revert pages. induction anns as [|ann anns IH]; intros pages Hrun p pg Hp.
  - cbn in Hrun. injection Hrun as <-.
    exists pg. by rewrite filter_nil, app_nil_r.
  - cbn [drawAnnotations] in Hrun. rewrite drawAnnotation_eq in Hrun.
    destruct (pages !! Annotation.page ann) as [pgq|] eqn:Hq; [|done].
    cbn in Hrun. destruct (decide (Annotation.page ann = p)) as [<-|Hne].
    + rewrite Hp in Hq. injection Hq as <-.
      destruct (IH _ Hrun (Annotation.page ann) (drawText pg
                  (textObject font (height (getSize pg)) ann)))
        as (pg' & Hpg' & Hsize & Hcontent).
      { apply list_lookup_insert_eq. by eapply lookup_lt_Some. }
      exists pg'. split_and!; [done|done|].
      rewrite Hcontent, filter_cons_True by done. cbn.
      by rewrite <-app_assoc.
    + destruct (IH _ Hrun p pg) as (pg' & Hpg' & Hsize & Hcontent).
      { by rewrite list_lookup_insert_ne. }
      exists pg'. split_and!; [done|done|].
      by rewrite Hcontent, filter_cons_False.
Qed.

Lemma drawAnnotations_length font (anns : list Annotation) pages pages' :
  drawAnnotations font anns pages = Ok pages' →
  length pages' = length pages.
Proof.
  revert pages. induction anns as [|ann anns IH]; intros pages Hrun.
  - cbn in Hrun. by injection Hrun as <-.
  - cbn [drawAnnotations] in Hrun. rewrite drawAnnotation_eq in Hrun.
    destruct (pages !! Annotation.page ann) as [pgq|]; [|done].
    cbn in Hrun. apply IH in Hrun. by rewrite length_insert in Hrun.
Qed.

(** The loop completes exactly when every annotation names a page of the
    document; one annotation out of range makes the whole loop throw. *)
Lemma drawAnnotations_Throw font (anns : list Annotation) pages ann :
  ann ∈ anns → length pages ≤ Annotation.page ann →
  drawAnnotations font anns pages = Throw "TypeError: page is undefined".
Proof.
  revert pages. induction anns as [|a anns IH]; intros pages Hin Hge.
  - by apply elem_of_nil in Hin.
  - cbn [drawAnnotations]. rewrite drawAnnotation_eq.
    destruct (pages !! Annotation.page a) as [pgq|] eqn:Hq; [|done].
    cbn. apply elem_of_cons in Hin as [->|Hin].
    + apply lookup_lt_Some in Hq. lia.
    + apply IH; [done|]. by rewrite length_insert.
Qed.

Lemma drawAnnotations_Ok font (anns : list Annotation) pages :
  (∀ ann, ann ∈ anns → Annotation.page ann < length pages) →
  ∃ pages', drawAnnotations font anns pages = Ok pages'.
Proof.
  revert pages. induction anns as [|a anns IH]; intros pages Hall.
  - by exists pages.
  - cbn [drawAnnotations]. rewrite drawAnnotation_eq.
    destruct (lookup_lt_is_Some_2 pages (Annotation.page a)) as [pg ->].
    { apply Hall. left. }
    cbn. apply IH. intros ann Hin. rewrite length_insert.
    apply Hall. by right.
Qed.

(** C2, as the code has it.  The height that enters the flip is the
    PDF-space height [h] the authoring library reports for the page, not
    the height of the pixel surface, and the exported y is [h - y]
    rounded to binary64: an annotation at screen [y = 0] exports to PDF
    y-coordinate [h] ([h] being a binary64 number), and the screen-to-PDF
    mapping of y is non-increasing: a larger screen y never exports to a
    larger PDF y. *)
Theorem flip_spec font pages ann pg :
  pages !! Annotation.page ann = Some pg →
  let h := height (getSize pg) in
  ∃ op,
    drawAnnotation font pages ann =
      Ok (<[Annotation.page ann := drawText pg op]> pages) ∧
    (op_y op == binary64 (h - Annotation.y ann))%Q ∧
    (Annotation.y ann == 0 → binary64 h == h → op_y op == h)%Q ∧
    ∀ ann' op',
      Annotation.page ann' = Annotation.page ann →
      drawAnnotation font pages ann' =
        Ok (<[Annotation.page ann := drawText pg op']> pages) →
      (Annotation.y ann < Annotation.y ann' → op_y op' <= op_y op)%Q.
Proof.
  intros Hpg h. exists (textObject font h ann).
  split_and!; [by apply drawAnnotation_Ok|done| |].
  - intros Hy Hh. cbn. rewrite <-Hh at 2. apply binary64_proper.
    rewrite Hy. ring.
  - intros ann' op' Hpage Hdraw Hlt.
    rewrite drawAnnotation_eq, Hpage, Hpg in Hdraw.
    injection Hdraw as Hins.
    apply (f_equal (.!! Annotation.page ann)) in Hins.
    rewrite !list_lookup_insert_eq in Hins by (by eapply lookup_lt_Some).
    injection Hins as Hcontent. apply app_inv_head in Hcontent.
    injection Hcontent as <-. cbn. subst h. apply binary64_mono. lra.
Qed.

Lemma exportPdf_try_inv env (f : File) (anns : list Annotation)
    (bytes : ArrayBuffer) :
  exportPdf_try env f anns = Ok bytes →
  ∃ existingPdfBytes pdfDoc font pages',
    arrayBuffer f = Ok existingPdfBytes ∧
    PDFDocument_load env existingPdfBytes = Ok pdfDoc ∧
    embedFont env pdfDoc Helvetica = Ok font ∧
    drawAnnotations font anns (getPages pdfDoc) = Ok pages' ∧
    save env {| getPages := pages' |} = Ok bytes.
Proof.
  unfold exportPdf_try. intros Hrun.
  destruct (arrayBuffer f) as [buf|] eqn:Hbuf; [|done]. cbn in Hrun.
  destruct (PDFDocument_load env buf) as [pdfDoc|] eqn:Hload; [|done].
  cbn in Hrun.
  destruct (embedFont env pdfDoc Helvetica) as [font|] eqn:Hfont; [|done].
  cbn in Hrun.
  destruct (drawAnnotations font anns (getPages pdfDoc)) as [pages'|]
    eqn:Hdraw; [|done].
  cbn in Hrun. exists buf, pdfDoc, font, pages'. by split_and!.
Qed.

Lemma forPage_handleFontSizeChange id size st p :
  forPage p (handleFontSizeChange id size st) =
    (λ ann, if decide (Annotation.id ann = id)
            then withFontSize size ann else ann) <$> forPage p st.
Proof.
  unfold forPage. cbn. induction (annotations st) as [|a l IH]; [done|].
  cbn [fmap list_fmap].
  destruct (decide (Annotation.page a = p)) as [Hp|Hp].
  - rewrite !filter_cons_True; [|done|by destruct (decide _)].
    cbn [fmap list_fmap]. by f_equal.
  - rewrite !filter_cons_False; [done|done|by destruct (decide _)].
Qed.

(** C8.  The export point sizes are small 10, medium 14 and large 18.
    When an export made after [updateFontSize id size] succeeds, the
    document that is saved holds, on every page, after what the page
    held, one text object per annotation of that page, in the order of
    the set, and the object of an annotation with the given id has the
    point size of [size], whatever size the annotation had before; the
    other annotations are drawn at the point size of their own size. *)
Theorem fontSize_at_export env id (size : FontSize) st (f : File)
    (bytes : ArrayBuffer) :
  exportPdf_try env f (annotations (handleFontSizeChange id size st))
    = Ok bytes →
  (fontSizeMap small = 10 ∧ fontSizeMap medium = 14 ∧
   fontSizeMap large = 18)%Q ∧
  ∃ pdfDoc font pages',
    (arrayBuffer f ≫= PDFDocument_load env) = Ok pdfDoc ∧
    embedFont env pdfDoc Helvetica = Ok font ∧
    save env {| getPages := pages' |} = Ok bytes ∧
    ∀ p pg, getPages pdfDoc !! p = Some pg →
      ∃ pg', pages' !! p = Some pg' ∧
        length (content pg') =
          length (content pg) + length (forPage p st) ∧
        ∀ i ann, forPage p st !! i = Some ann →
          ∃ op, content pg' !! (length (content pg) + i) = Some op ∧
            op_text op = Annotation.text ann ∧
            op_size op =
              fontSizeMap (if decide (Annotation.id ann = id)
                           then size else Annotation.fontSize ann).
Proof.
  intros (buf & pdfDoc & font & pages' & Hbuf & Hload & Hfont & Hdraw
          & Hsave)%exportPdf_try_inv.
  split; [done|]. exists pdfDoc, font, pages'.
  split_and!; [by rewrite Hbuf|done|done|].
  intros p pg Hpg.
  destruct (drawAnnotations_content _ _ _ _ Hdraw p pg Hpg)
    as (pg' & Hpg' & _ & Hcontent).
  fold (forPage p (handleFontSizeChange id size st)) in Hcontent.
  rewrite forPage_handleFontSizeChange in Hcontent.
  exists pg'. split_and!; [done| |].
  - by rewrite Hcontent, length_app, !length_fmap.
  - intros i ann Hi. rewrite Hcontent.
    rewrite lookup_app_r by lia.
    replace (length (content pg) + i - length (content pg)) with i by lia.
    rewrite !list_lookup_fmap, Hi. cbn.
    eexists; split; [done|]. by destruct (decide _).
Qed.

(** C4.  Export leaves the loaded file (and with it the bytes it
    reads), the page count, the annotation set, the selection, the page
    references and the stored set exactly as they were.  When the export
    fails, at whatever step, the trace holds the two error reports and no
    download, and the unsaved-changes flag is also unchanged; when it
    succeeds the one download is the buffer [save] returned for the
    document loaded afresh from the file's bytes. *)
Theorem exportPdf_frame env st :
  let st' := (exportPdf env st).1 in
  let log := (exportPdf env st).2 in
  (pdfFile st' = pdfFile st ∧ numPages st' = numPages st ∧
   annotations st' = annotations st ∧
   selectedAnnotation st' = selectedAnnotation st ∧
   canvasRefs st' = canvasRefs st ∧
   annotationContainerRefs st' = annotationContainerRefs st ∧
   localStorage st' = localStorage st) ∧
  (pdfFile st = None → st' = st ∧ log = [alert "No PDF file loaded!"]) ∧
  (∀ f e, pdfFile st = Some f →
     exportPdf_try env f (annotations st) = Throw e →
     filter isDownload log = [] ∧
     log = [console_error "Failed to export PDF:";
            alert "An error occurred while exporting the PDF."] ∧
     hasUnsavedChanges st' = hasUnsavedChanges st) ∧
  (∀ f bytes, pdfFile st = Some f →
     exportPdf_try env f (annotations st) = Ok bytes →
     log = [download "edited.pdf" bytes] ∧
     ∃ existingPdfBytes pdfDoc font pages',
       arrayBuffer f = Ok existingPdfBytes ∧
       PDFDocument_load env existingPdfBytes = Ok pdfDoc ∧
       embedFont env pdfDoc Helvetica = Ok font ∧
       drawAnnotations font (annotations st) (getPages pdfDoc)
         = Ok pages' ∧
       save env {| getPages := pages' |} = Ok bytes).
Proof.
  unfold exportPdf.
  destruct (pdfFile st) as [f|] eqn:Hfile; cbn [setLoading annotations].
  - destruct (exportPdf_try env f (annotations st)) as [bytes|e] eqn:Hrun;
      cbn; rewrite ?Hfile; split_and!; try done.
    + intros ? ? [= <-] Hthrow. congruence.
    + intros ? ? [= <-] Hok. assert (bytes0 = bytes) as -> by congruence.
      split; [done|]. by apply exportPdf_try_inv.
    + intros ? ? [= <-] Hok. congruence.
  - cbn. rewrite ?Hfile. split_and!; done.
Qed.

End Exporter.

(** ** Properties of file selection and loading *)

Section Loader.
Variable env : Collaborators.
Implicit Types (st : State) (f : File).

(** The [try] block of [loadPdf] writes the page count and the page
    references only. *)
Lemma loadPdf_try_frame f st :
  let st' := (loadPdf_try env f st).1.1 in
  pdfFile st' = pdfFile st ∧ annotations st' = annotations st ∧
  selectedAnnotation st' = selectedAnnotation st ∧
  loading st' = loading st ∧
  hasUnsavedChanges st' = hasUnsavedChanges st ∧
  localStorage st' = localStorage st.
Proof.
  unfold loadPdf_try.
  destruct (arrayBuffer f) as [typedArray|]; [|done].
  destruct (getDocument env typedArray) as [pdf|]; [|done].
  by destruct (renderPages _ _ _).
Qed.

Lemma loadPdf_frame f st :
  let st' := (loadPdf env f st).1 in
  annotations st' = annotations st ∧
  selectedAnnotation st' = selectedAnnotation st ∧
  loading st' = loading st ∧
  hasUnsavedChanges st' = hasUnsavedChanges st ∧
  localStorage st' = localStorage st.
Proof.
  pose proof (loadPdf_try_frame f st) as Htry. cbn zeta in Htry.
  unfold loadPdf.
  destruct (loadPdf_try env f st) as [[st1 log] r].
  destruct Htry as (_ & ? & ? & ? & ? & ?).
  by destruct r as [[]|e].
Qed.

Lemma loadPdf_outcome f st :
  match (loadPdf_try env f st).2 with
  | Ok _ =>
      pdfFile (loadPdf env f st).1 = pdfFile st ∧
      (loadPdf env f st).2 = (loadPdf_try env f st).1.2
  | Throw _ =>
      pdfFile (loadPdf env f st).1 = None ∧
      list.last (loadPdf env f st).2 = Some loadFailed
  end.
Proof.
  pose proof (loadPdf_try_frame f st) as Htry. cbn zeta in Htry.
  unfold loadPdf.
  destruct (loadPdf_try env f st) as [[st1 log] r].
  destruct Htry as (? & _). destruct r as [[]|e]; cbn.
  - done.
  - split; [done|]. by rewrite last_app.
Qed.

(** The page count after [loadPdf]: the count of the decoded document,
    whether or not its pages then rendered, and the previous count when
    the file could not be read or decoded. *)
Lemma loadPdf_numPages f st :
  numPages (loadPdf env f st).1 =
    match arrayBuffer f ≫= getDocument env with
    | Ok pdf => pdf_numPages pdf
    | Throw _ => numPages st
    end.
Proof.
  unfold loadPdf, loadPdf_try.
  destruct (arrayBuffer f) as [typedArray|]; [|done]. cbn.
  destruct (getDocument env typedArray) as [pdf|]; [|done].
  by destruct (renderPages _ _ _) as [canvases [[]|e]].
Qed.

Lemma loadPdf_try_decodes_once f st :
  length (filter isDecode (loadPdf_try env f st).1.2) ≤ 1.
Proof.
  unfold loadPdf_try.
  destruct (arrayBuffer f) as [typedArray|]; [|by apply Nat.le_0_l].
  destruct (getDocument env typedArray) as [pdf|]; [|done].
  by destruct (renderPages _ _ _).
Qed.

Lemma handleFileChange_pdf f st :
  type f = "application/pdf" →
  handleFileChange env (Some f) st =
    (setLoading false (loadPdf env f (beforeLoad f st)).1,
     (loadPdf env f (beforeLoad f st)).2).
Proof.
  intros Htype. unfold handleFileChange. rewrite decide_True by done.
  fold (beforeLoad f st). by destruct (loadPdf env f (beforeLoad f st)).
Qed.

Lemma handleFileChange_rejects (file : option File) st :
  (∀ f, file = Some f → type f ≠ "application/pdf") →
  handleFileChange env file st = (st, [rejected]).
Proof.
  intros Hbad. unfold handleFileChange. destruct file as [f|]; [|done].
  by rewrite decide_False by (by apply Hbad).
Qed.

(** C6, as the code has it.  When the load of a file declared as PDF
    fails, at whatever step, the file pointer is cleared, so no file is
    considered loaded, and the failure is reported; the page count is
    not among what is cleared: it is the count of the document when the
    file was read and decoded, and the previous count otherwise.  When no
    file is chosen or the chosen file is not declared as PDF, the state
    is left as it is and the trace is the rejection notice alone: no
    decode is attempted; from the initial state the page count stays 0
    and no file is loaded. *)
Theorem load_failure_and_rejection st :
  (∀ f e, type f = "application/pdf" →
     (loadPdf_try env f (beforeLoad f st)).2 = Throw e →
     pdfFile (handleFileChange env (Some f) st).1 = None ∧
     numPages (handleFileChange env (Some f) st).1 =
       match arrayBuffer f ≫= getDocument env with
       | Ok pdf => pdf_numPages pdf
       | Throw _ => numPages st
       end ∧
     list.last (handleFileChange env (Some f) st).2 = Some loadFailed) ∧
  (∀ file : option File,
     (∀ f, file = Some f → type f ≠ "application/pdf") →
     handleFileChange env file st = (st, [rejected]) ∧
     filter isDecode (handleFileChange env file st).2 = []) ∧
  (∀ (file : option File) stored,
     (∀ f, file = Some f → type f ≠ "application/pdf") →
     numPages (handleFileChange env file (initial stored)).1 = 0 ∧
     pdfFile (handleFileChange env file (initial stored)).1 = None).
Proof.
  split_and!.
  - intros f e Htype Hfail. rewrite handleFileChange_pdf by done. cbn.
    pose proof (loadPdf_outcome f (beforeLoad f st)) as Hout.
    rewrite Hfail in Hout. destruct Hout as [Hfile Hlog].
    split_and!; [done| |done].
    unfold setLoading; cbn. by rewrite loadPdf_numPages.
  - intros file Hbad. by rewrite handleFileChange_rejects.
  - intros file stored Hbad. by rewrite handleFileChange_rejects.
Qed.

(** C10.  Selecting a file declared as PDF empties the annotation set
    before [loadPdf] is called, and loading does not touch the set: after
    the file change, whether the load succeeded or not, the set is empty,
    every page overlay is empty and an export draws no text object (it
    is the plain load-and-save of the file).  The selection pointer is
    what it was before the file change. *)
Theorem file_change_resets_annotations f st :
  type f = "application/pdf" →
  let st' := (handleFileChange env (Some f) st).1 in
  annotations (beforeLoad f st) = [] ∧
  handleFileChange env (Some f) st =
    (setLoading false (loadPdf env f (beforeLoad f st)).1,
     (loadPdf env f (beforeLoad f st)).2) ∧
  annotations st' = [] ∧
  (∀ index, forPage index st' = []) ∧
  (∀ f', exportPdf_try env f' (annotations st') = resave env f') ∧
  selectedAnnotation st' = selectedAnnotation st.
Proof.
  intros Htype st'.
  pose proof (loadPdf_frame f (beforeLoad f st)) as (Hann & Hsel & _).
  assert (Hempty : annotations st' = []).
  { subst st'. by rewrite handleFileChange_pdf. }
  split_and!; [done|by apply handleFileChange_pdf|done| | |].
  - intros index. unfold forPage. by rewrite Hempty.
  - intros f'. by rewrite Hempty.
  - subst st'. by rewrite handleFileChange_pdf.
Qed.

End Loader.

(** ** The component on explicit inputs *)

Section Runs.
Import Demo.

(** Closed goals are settled by evaluation. *)
Local Ltac run := vm_compute; first [reflexivity | discriminate].

(** C1.  On a US Letter page, rendered at scale 1.5 into a 918 by 1188
    pixel surface, a click at offset (150, 150) of the page is stored as
    the screen point (150, 150), and export draws the text at PDF point
    (150, 642): the offsets are written undivided, although the transform
    for scale 1.5 is (100, 692). *)
Theorem export_ignores_display_scale :
  canvasRefs placed !! 0 =
    Some (Some {| Canvas.width := 918; Canvas.height := 1188 |}) ∧
  annotations placed = [note "1700000000000" 0 150 150] ∧
  PDFDocument_load env [Byte.x00] = Ok {| getPages := [blankPage] |} ∧
  (∃ op,
     drawAnnotations font (annotations placed) [blankPage] =
       Ok [drawText blankPage op] ∧
     op_x op = 150%Q ∧ op_y op = 642%Q ∧
     (fst (specTransform scale 792 (note "1700000000000" 0 150 150))
        == 100)%Q ∧
     (snd (specTransform scale 792 (note "1700000000000" 0 150 150))
        == 692)%Q ∧
     ¬ (op_x op == 100)%Q ∧ ¬ (op_y op == 692)%Q) ∧
  (exportPdf env placed).2 = [download "edited.pdf" [Byte.x50; Byte.x54]].
Proof.
  split_and!; [run|run|run| |run].
  exists (textObject font 792 (note "1700000000000" 0 150 150)).
  split_and!; run.
Qed.

(** C2 fails as stated.  The pixel surface of a US Letter page has
    height H = 1188, but an annotation at screen y = 0 exports to PDF
    y-coordinate 792, not to H, and one at screen y = H exports to -396,
    not to 0.  Nor is the mapping strictly decreasing: the offsets
    7036874417766 / 2^46 and 7036874417767 / 2^46 (those of clicks at
    [clientY] 100.1 and at the next double, on a container whose top is
    100) differ, and both export to the same y, the double nearest to
    791.9. *)
Lemma flip_pixel_surface_counterexample :
  canvasRefs (open onePage) !! 0 =
    Some (Some {| Canvas.width := 918; Canvas.height := 1188 |}) ∧
  PDFDocument_load env [Byte.x00] = Ok {| getPages := [blankPage] |} ∧
  (∃ op,
     drawAnnotation font [blankPage] (note "a" 0 10 0) =
       Ok [drawText blankPage op] ∧
     op_y op = 792%Q ∧ ¬ (op_y op == 1188)%Q) ∧
  (∃ op,
     drawAnnotation font [blankPage] (note "b" 0 10 1188) =
       Ok [drawText blankPage op] ∧
     op_y op = (-396)%Q ∧ ¬ (op_y op == 0)%Q) ∧
  (∃ op1 op2,
     drawAnnotation font [blankPage]
         (note "c" 0 10 (7036874417766 # 70368744177664)) =
       Ok [drawText blankPage op1] ∧
     drawAnnotation font [blankPage]
         (note "d" 0 10 (7036874417767 # 70368744177664)) =
       Ok [drawText blankPage op2] ∧
     (7036874417766 # 70368744177664 < 7036874417767 # 70368744177664)%Q ∧
     op_y op1 = (6965626064286515 # 8796093022208)%Q ∧
     op_y op2 = (6965626064286515 # 8796093022208)%Q ∧
     ¬ (op_y op2 < op_y op1)%Q).
Proof.
  split_and!; [run|run| | |].
  - exists (textObject font 792 (note "a" 0 10 0)).
    split_and!; run.
  - exists (textObject font 792 (note "b" 0 10 1188)).
    split_and!; run.
  - exists (textObject font 792
              (note "c" 0 10 (7036874417766 # 70368744177664))),
           (textObject font 792
              (note "d" 0 10 (7036874417767 # 70368744177664))).
    split_and!; run.
Qed.

Lemma flip_spec_witness :
  [blankPage] !! Annotation.page (note "a" 0 10 0) = Some blankPage ∧
  ∃ op,
    drawAnnotation font [blankPage] (note "a" 0 10 0) =
      Ok [drawText blankPage op] ∧
    (op_y op == 792)%Q ∧
    ∀ op',
      drawAnnotation font [blankPage] (note "b" 0 10 1188) =
        Ok [drawText blankPage op'] →
      (op_y op' <= op_y op)%Q.
Proof.
  assert (Hpg : [blankPage] !! Annotation.page (note "a" 0 10 0)
                = Some blankPage) by reflexivity.
  split; [exact Hpg|].
  destruct (flip_spec font [blankPage] (note "a" 0 10 0) blankPage Hpg)
    as (op & Hdraw & _ & Htop & Hmono).
  exists op. split_and!; [exact Hdraw| |].
  - apply Htop; [reflexivity|]. vm_compute. reflexivity.
  - intros op' Hdraw'.
    apply (Hmono (note "b" 0 10 1188) op' eq_refl Hdraw'). reflexivity.
Defined.

(** C3.  The one-page document is open and the set holds an annotation
    of page 4 and one of page 0.  Export does not skip the first:
    reading the size of the missing page throws, the export ends with
    the error notice, and nothing is offered for download, although the
    second annotation names an existing page. *)
Theorem export_out_of_range_aborts :
  pdfFile staleClick = Some onePage ∧
  annotations staleClick =
    [note "1700000000000" 4 150 84; note "1700000005000" 0 50 100] ∧
  PDFDocument_load env [Byte.x00] = Ok {| getPages := [blankPage] |} ∧
  drawAnnotations font (annotations staleClick) [blankPage] =
    Throw "TypeError: page is undefined" ∧
  exportPdf env staleClick =
    (staleClick, [console_error "Failed to export PDF:";
                  alert "An error occurred while exporting the PDF."]) ∧
  filter isDownload (exportPdf env staleClick).2 = [] ∧
  is_Ok (drawAnnotations font [note "1700000005000" 0 50 100] [blankPage])
    = true.
Proof. split_and!; run. Qed.

Lemma exportPdf_frame_witness :
  annotations (exportPdf env placed).1 = annotations placed ∧
  pdfFile (exportPdf env staleClick).1 = Some onePage ∧
  filter isDownload (exportPdf env staleClick).2 = [].
Proof.
  destruct (exportPdf_frame env placed) as ((_ & _ & Hann & _) & _).
  destruct (exportPdf_frame env staleClick)
    as ((Hfile & _) & _ & Hfail & _).
  split; [exact Hann|]. split; [exact Hfile|].
  apply (Hfail onePage "TypeError: page is undefined");
    reflexivity.
Defined.

(** C5 fails as stated.  The one annotation of the set is the selected
    one; after its removal the set is empty and the selection pointer
    still holds its id. *)
Lemma remove_selected_counterexample :
  ids placed = ["1700000000000"] ∧
  selectedAnnotation placed = Some "1700000000000" ∧
  annotations (handleDeleteAnnotation "1700000000000" placed) = [] ∧
  selectedAnnotation (handleDeleteAnnotation "1700000000000" placed)
    = Some "1700000000000" ∧
  selectedAnnotation (handleDeleteAnnotation "1700000000000" placed)
    ≠ None.
Proof. split_and!; run. Qed.

Lemma remove_spec_witness :
  selectedAnnotation (handleDeleteAnnotation "1700000000000" placed)
    = selectedAnnotation placed ∧
  annotations (handleDeleteAnnotation "nobody" placed) = annotations placed.
Proof.
  destruct (remove_spec "1700000000000" placed) as (_ & _ & Hsel & _).
  destruct (remove_spec "nobody" placed) as (_ & _ & _ & _ & _ & Hnoop).
  split; [exact Hsel|]. apply Hnoop.
  intros ann Hin. apply list_elem_of_singleton in Hin. by subst ann.
Defined.

(** C6 fails as stated.  The second page of the chosen document fails
    to render: the file pointer is cleared, but the page count 2 that the
    failed load had set stays. *)
Lemma load_failure_counterexample :
  type brokenPage = "application/pdf" ∧
  (handleFileChange env (Some brokenPage) (initial None)).2 =
    [decode [Byte.x00; Byte.xff]; console_error "Error loading PDF:";
     loadFailed] ∧
  pdfFile (handleFileChange env (Some brokenPage) (initial None)).1
    = None ∧
  numPages (handleFileChange env (Some brokenPage) (initial None)).1 = 2 ∧
  numPages (handleFileChange env (Some brokenPage) (initial None)).1
    ≠ numPages (initial None).
Proof. split_and!; run. Qed.

Lemma load_failure_and_rejection_witness :
  (pdfFile (handleFileChange env (Some brokenPage) (open onePage)).1
     = None ∧
   numPages (handleFileChange env (Some brokenPage) (open onePage)).1
     = 2 ∧
   list.last (handleFileChange env (Some brokenPage) (open onePage)).2
     = Some loadFailed) ∧
  handleFileChange env (Some notes) (open onePage)
    = (open onePage, [rejected]) ∧
  numPages (handleFileChange env (Some notes) (initial None)).1 = 0.
Proof.
  destruct (load_failure_and_rejection env (open onePage))
    as (Hfail & Hreject & Hinit).
  split; [|split].
  - destruct (Hfail brokenPage "render failed") as (Hfile & Hcount & Hlog);
      [reflexivity|reflexivity|].
    split; [exact Hfile|]. split; [exact Hcount|exact Hlog].
  - apply (Hreject (Some notes)). intros f [= <-]. discriminate.
  - apply (Hinit (Some notes) None). intros f [= <-]. discriminate.
Defined.



Lemma fontSize_at_export_witness :
  Annotation.fontSize <$> annotations placed = [medium] ∧
  exportPdf_try env onePage
    (annotations (handleFontSizeChange "1700000000000" large placed))
    = Ok [Byte.x50; Byte.x54] ∧
  ∃ op : TextObject, op_text op = "Type here..." ∧ op_size op = 18%Q.
Proof.
  assert (Hrun : exportPdf_try env onePage
            (annotations (handleFontSizeChange "1700000000000" large placed))
            = Ok [Byte.x50; Byte.x54]) by reflexivity.
  split; [reflexivity|]. split; [exact Hrun|].
  destruct (fontSize_at_export env "1700000000000" large placed onePage
              _ Hrun) as (_ & pdfDoc & font & pages' & Hload & _ & _ & Hdrawn).
  vm_compute in Hload. injection Hload as <-.
  destruct (Hdrawn 0 blankPage eq_refl) as (pg' & _ & _ & Hops).
  destruct (Hops 0 (note "1700000000000" 0 150 150) eq_refl)
    as (op & _ & Htext & Hsize).
  exists op. split; [exact Htext|exact Hsize].
Defined.

Lemma update_frame_witness :
  Annotation.text <$>
    annotations (handleAnnotationChange "1700000000000" "Hello" placed)
    = ["Hello"] ∧
  annotations (handleFontSizeChange "nobody" large placed)
    = annotations placed.
Proof.
  destruct (update_frame "1700000000000" "Hello" large placed)
    as (Hat & _).
  destruct (update_frame "nobody" "Hello" large placed)
    as (_ & _ & _ & _ & _ & _ & _ & Hnoop).
  split.
  - destruct (Hat 0 (note "1700000000000" 0 150 150) eq_refl)
      as (_ & Hmatch).
    destruct (Hmatch eq_refl) as (Htext & _).
    apply (f_equal (fmap (M:=option) Annotation.text)) in Htext.
    reflexivity.
  - apply Hnoop. intros ann Hin.
    apply list_elem_of_singleton in Hin. by subst ann.
Defined.

Lemma file_change_resets_annotations_witness :
  type twoPages = "application/pdf" ∧
  annotations placed ≠ [] ∧
  annotations (handleFileChange env (Some twoPages) placed).1 = [] ∧
  selectedAnnotation (handleFileChange env (Some twoPages) placed).1
    = Some "1700000000000".
Proof.
  split; [reflexivity|]. split; [discriminate|].
  destruct (file_change_resets_annotations env twoPages placed eq_refl)
    as (_ & _ & Hempty & _ & _ & Hsel).
  split; [exact Hempty|exact Hsel].
Defined.

End Runs.

(** ** Further properties of the export loop *)

Section ExportLoop.
Implicit Types (ann : Annotation) (anns : list Annotation).
Implicit Types (pages : list PDFPage) (font : PDFFont).

Lemma export_range_cases font anns pages :
  (∀ ann, ann ∈ anns → Annotation.page ann < length pages) ∨
  (∃ ann, ann ∈ anns ∧ length pages ≤ Annotation.page ann).
Proof.
  induction anns as [|a anns IH]; [left; by intros ? ?%elem_of_nil|].
  destruct (decide (Annotation.page a < length pages)) as [Ha|Ha].
  - destruct IH as [IH|(b & Hb & Hge)].
    + left. by intros ann [->|?]%elem_of_cons; [|apply IH].
    + right. exists b. split; [by right|done].
  - right. exists a. split; [left|lia].
Qed.

Lemma export_range_of_Ok font anns pages :
  is_Ok (drawAnnotations font anns pages) = true →
  ∀ ann, ann ∈ anns → Annotation.page ann < length pages.
Proof.
  intros Hok. destruct (export_range_cases font anns pages)
    as [Hall|(bad & Hin & Hge)]; [done|].
  by rewrite (drawAnnotations_Throw font anns pages bad Hin Hge) in Hok.
Qed.

Lemma export_Throw_message font anns pages e :
  drawAnnotations font anns pages = Throw e →
  e = "TypeError: page is undefined".
Proof.
  intros Hrun. destruct (export_range_cases font anns pages)
    as [Hall|(bad & Hin & Hge)].
  - destruct (drawAnnotations_Ok font anns pages Hall) as [? Hok].
    congruence.
  - rewrite (drawAnnotations_Throw font anns pages bad Hin Hge) in Hrun.
    congruence.
Qed.

(** X1.  When the export loop completes, every annotation of the set
    named a page of the document, and the loop has kept the number of
    pages and their sizes and added to every page, after what the page
    held, one text object per annotation of that page, in the order of
    the set: the annotation's text at x = ann.x and y = page height -
    ann.y (rounded to binary64), in the embedded font, black, at the
    point size of its font size. *)
Theorem export_loop_draws_each_page font anns pages pages' :
  drawAnnotations font anns pages = Ok pages' →
  (∀ ann, ann ∈ anns → Annotation.page ann < length pages) ∧
  length pages' = length pages ∧
  ∀ p pg, pages !! p = Some pg →
    ∃ pg', pages' !! p = Some pg' ∧ getSize pg' = getSize pg ∧
      content pg' =
        content pg ++
        ((λ ann,
            {| op_text := Annotation.text ann;
               op_x := Annotation.x ann;
               op_y := binary64 (height (getSize pg) - Annotation.y ann);
               op_font := font;
               op_size := fontSizeMap (Annotation.fontSize ann);
               op_color := (0, 0, 0)%Q |}) <$>
           filter (λ ann, Annotation.page ann = p) anns).
Proof.
  intros Hrun. split_and!.
  - apply (export_range_of_Ok font). by rewrite Hrun.
  - by eapply drawAnnotations_length.
  - intros p pg Hp.
    destruct (drawAnnotations_content _ _ _ _ Hrun p pg Hp)
      as (pg' & Hpg' & Hsize & Hcontent).
    by exists pg'.
Qed.

(** X2.  One annotation that names a page the document does not have
    fails the whole export, wherever it stands in the set: the loop does
    not complete, and [exportPdf] ends with the error notice and no
    download, leaving the unsaved-changes flag as it was. *)
Theorem export_fails_on_missing_page env :
  (∀ font anns pages ann,
     ann ∈ anns → length pages ≤ Annotation.page ann →
     is_Ok (drawAnnotations font anns pages) = false) ∧
  (∀ (st : State) (f : File),
     pdfFile st = Some f →
     (∀ existingPdfBytes pdfDoc,
        arrayBuffer f = Ok existingPdfBytes →
        PDFDocument_load env existingPdfBytes = Ok pdfDoc →
        ∃ ann, ann ∈ annotations st ∧
               length (getPages pdfDoc) ≤ Annotation.page ann) →
     (exportPdf env st).2 =
       [console_error "Failed to export PDF:";
        alert "An error occurred while exporting the PDF."] ∧
     filter isDownload (exportPdf env st).2 = [] ∧
     hasUnsavedChanges (exportPdf env st).1 = hasUnsavedChanges st).
Proof.
  split.
  - intros font anns pages ann Hin Hge.
    by rewrite (drawAnnotations_Throw font anns pages ann Hin Hge).
  - intros st f Hfile Hbad.
    assert (Hthrow : is_Ok (exportPdf_try env f (annotations st)) = false).
    { unfold exportPdf_try.
      destruct (arrayBuffer f) as [existingPdfBytes|] eqn:Hbuf; [|done].
      cbn. destruct (PDFDocument_load env existingPdfBytes)
        as [pdfDoc|] eqn:Hload; [|done].
      cbn. destruct (embedFont env pdfDoc Helvetica) as [font|]; [|done].
      cbn. destruct (Hbad _ _ eq_refl Hload) as (ann & Hin & Hge).
      by rewrite (drawAnnotations_Throw font _ _ ann Hin Hge). }
    unfold exportPdf. rewrite Hfile.
    change (annotations (setLoading true st)) with (annotations st).
    by destruct (exportPdf_try env f (annotations st)).
Qed.

Lemma same_pages_same_range anns1 anns2 pages :
  (∀ p, filter (λ ann, Annotation.page ann = p) anns1 =
        filter (λ ann, Annotation.page ann = p) anns2) →
  (∀ ann, ann ∈ anns1 → Annotation.page ann < length pages) →
  ∀ ann, ann ∈ anns2 → Annotation.page ann < length pages.
Proof.
  intros Hsame Hall ann Hin. apply Hall.
  assert (Hf : ann ∈ filter (λ a, Annotation.page a = Annotation.page ann)
                 anns2) by (by apply list_elem_of_filter).
  rewrite <-Hsame in Hf. by apply list_elem_of_filter in Hf as [_ ?].
Qed.

(** X3.  What the export loop produces depends only on the sequence of
    annotations of each page: two sets that agree page by page, however
    the annotations of different pages are interleaved, give the same
    pages, or fail alike. *)
Theorem export_depends_on_page_order_only font anns1 anns2 pages :
  (∀ p, filter (λ ann, Annotation.page ann = p) anns1 =
        filter (λ ann, Annotation.page ann = p) anns2) →
  drawAnnotations font anns1 pages = drawAnnotations font anns2 pages.
Proof.
  intros Hsame.
  destruct (drawAnnotations font anns1 pages) as [pages1|e1] eqn:Hrun1.
  - assert (Hall1 : ∀ ann, ann ∈ anns1 →
                      Annotation.page ann < length pages).
    { apply (export_range_of_Ok font). by rewrite Hrun1. }
    destruct (drawAnnotations_Ok font anns2 pages
                (same_pages_same_range _ _ _ Hsame Hall1)) as [pages2 Hrun2].
    rewrite Hrun2. f_equal. apply list_eq. intros p.
    destruct (pages !! p) as [pg|] eqn:Hp.
    + destruct (drawAnnotations_content _ _ _ _ Hrun1 p pg Hp)
        as (pg1 & -> & Hsize1 & Hcontent1).
      destruct (drawAnnotations_content _ _ _ _ Hrun2 p pg Hp)
        as (pg2 & -> & Hsize2 & Hcontent2).
      f_equal. destruct pg1, pg2. cbn in *. rewrite Hsame in Hcontent1.
      congruence.
    + apply lookup_ge_None in Hp.
      rewrite !(lookup_ge_None_2 _ p); [done| |].
      * by rewrite (drawAnnotations_length _ _ _ _ Hrun2).
      * by rewrite (drawAnnotations_length _ _ _ _ Hrun1).
  - destruct (drawAnnotations font anns2 pages) as [pages2|e2] eqn:Hrun2.
    + assert (Hall2 : ∀ ann, ann ∈ anns2 →
                        Annotation.page ann < length pages).
      { apply (export_range_of_Ok font). by rewrite Hrun2. }
      assert (Hsame' : ∀ p, filter (λ ann, Annotation.page ann = p) anns2 =
                            filter (λ ann, Annotation.page ann = p) anns1)
        by (intros p; by rewrite Hsame).
      destruct (drawAnnotations_Ok font anns1 pages
                  (same_pages_same_range _ _ _ Hsame' Hall2)) as [? Hrun].
      congruence.
    + apply (export_Throw_message font) in Hrun1.
      apply (export_Throw_message font) in Hrun2. congruence.
Qed.

End ExportLoop.

(** ** How the operations of the annotation model compose *)

Section Composition.
Implicit Types (st : State) (ann : Annotation) (id : string).

Lemma setAnnotations_twice (l1 l2 : list Annotation) st :
  setAnnotations l2 (setAnnotations l1 st) = setAnnotations l2 st.
Proof. reflexivity. Qed.

(** X4.  Placing an annotation and then removing its id leaves the set
    without any annotation of that id: the new annotation is gone, and so
    is every older annotation that carried the same id.  When the id was
    not in use, the set, and the stored copy, are what they were before the
    click; the selection pointer keeps the id of the removed annotation. *)
Theorem place_then_remove (pageIndex : nat) (event : MouseEvent) (now : Z)
    st (container : HTMLDivElement) :
  mjoin (annotationContainerRefs st !! pageIndex) = Some container →
  target_closest_annotation_text event = false →
  let st' := handleDeleteAnnotation (pretty now)
               (handlePageClick pageIndex event now st) in
  annotations st' =
    filter (λ ann, Annotation.id ann ≠ pretty now) (annotations st) ∧
  ((∀ ann, ann ∈ annotations st → Annotation.id ann ≠ pretty now) →
     annotations st' = annotations st ∧
     localStorage st' = Some (annotations st)) ∧
  selectedAnnotation st' = Some (pretty now).
Proof.
  intros Hrefs Htarget. unfold handlePageClick. rewrite Hrefs, Htarget.
  cbn. rewrite list.filter_app, filter_cons_False, filter_nil, app_nil_r
    by (cbn; by intros []).
  split_and!; [done| |done].
  intros Hfresh. by rewrite filter_unknown_id.
Qed.

(** X5.  Updates of the same annotation compose by last write: a second
    text for an id replaces the first, a second size replaces the first.
    A text update and a size update commute, whether or not they address
    the same annotation.  Each equation holds of the whole component
    state. *)
Theorem updates_compose id id' (t1 t2 : string) (s1 s2 : FontSize) st :
  handleAnnotationChange id t2 (handleAnnotationChange id t1 st)
    = handleAnnotationChange id t2 st ∧
  handleFontSizeChange id s2 (handleFontSizeChange id s1 st)
    = handleFontSizeChange id s2 st ∧
  handleFontSizeChange id' s1 (handleAnnotationChange id t1 st)
    = handleAnnotationChange id t1 (handleFontSizeChange id' s1 st).
Proof.
  unfold handleAnnotationChange, handleFontSizeChange.
  rewrite !setAnnotations_twice. cbn [annotations setAnnotations].
  split_and!; f_equal.
  - rewrite <-list_fmap_compose. apply list_fmap_ext. intros _ ann _. cbn.
    destruct (decide (Annotation.id ann = id)); [|by rewrite decide_False].
    by rewrite decide_True.
  - rewrite <-list_fmap_compose. apply list_fmap_ext. intros _ ann _. cbn.
    destruct (decide (Annotation.id ann = id)); [|by rewrite decide_False].
    by rewrite decide_True.
  - rewrite <-!list_fmap_compose. apply list_fmap_ext. intros _ ann _. cbn.
    repeat case_decide; cbn in *; congruence.
Qed.

Lemma ids_filter id (l : list Annotation) :
  Annotation.id <$> filter (λ ann, Annotation.id ann ≠ id) l
  = filter (λ i, i ≠ id) (Annotation.id <$> l).
Proof.
  induction l as [|a l IH]; [done|]. cbn [fmap list_fmap].
  destruct (decide (Annotation.id a = id)) as [He|He].
  - by rewrite !filter_cons_False by (by intros []).
  - rewrite !filter_cons_True by done. cbn. by f_equal.
Qed.

Lemma overlay_ids_fmap (g : Annotation → Annotation) (index : nat)
    (l : list Annotation) :
  (∀ ann, Annotation.id (g ann) = Annotation.id ann) →
  (∀ ann, Annotation.page (g ann) = Annotation.page ann) →
  Annotation.id <$> filter (λ ann, Annotation.page ann = index) (g <$> l)
  = Annotation.id <$> filter (λ ann, Annotation.page ann = index) l.
Proof.
  intros Hid Hpage. induction l as [|a l IH]; [done|].
  cbn [fmap list_fmap].
  destruct (decide (Annotation.page a = index)) as [Hp|Hp].
  - rewrite !filter_cons_True by (by rewrite ?Hpage).
    cbn [fmap list_fmap]. by rewrite Hid, IH.
  - by rewrite !filter_cons_False by (by rewrite ?Hpage).
Qed.

(** X6.  The edit operations never move an annotation: a text or size
    update leaves the ids, the pages and the offsets of the set, position
    by position, as they were, so every page overlay keeps its ids in
    order; removal keeps the ids other than the removed one, in order.
    Ids that were pairwise distinct stay so under all three. *)
Theorem edits_keep_identity id (newText : string) (size : FontSize) st :
  let position (ann : Annotation) :=
    (Annotation.id ann, Annotation.page ann,
     Annotation.x ann, Annotation.y ann) in
  position <$> annotations (handleAnnotationChange id newText st)
    = position <$> annotations st ∧
  position <$> annotations (handleFontSizeChange id size st)
    = position <$> annotations st ∧
  (∀ index,
     Annotation.id <$> forPage index (handleAnnotationChange id newText st)
       = Annotation.id <$> forPage index st ∧
     Annotation.id <$> forPage index (handleFontSizeChange id size st)
       = Annotation.id <$> forPage index st) ∧
  ids (handleDeleteAnnotation id st) = filter (λ i, i ≠ id) (ids st) ∧
  (NoDup (ids st) →
     NoDup (ids (handleAnnotationChange id newText st)) ∧
     NoDup (ids (handleFontSizeChange id size st)) ∧
     NoDup (ids (handleDeleteAnnotation id st))).
Proof.
  intros position.
  assert (Htext : position <$> annotations (handleAnnotationChange id newText st)
                  = position <$> annotations st).
  { cbn. rewrite <-list_fmap_compose. apply list_fmap_ext.
    intros _ ann _. cbn. by destruct (decide _). }
  assert (Hsize : position <$> annotations (handleFontSizeChange id size st)
                  = position <$> annotations st).
  { cbn. rewrite <-list_fmap_compose. apply list_fmap_ext.
    intros _ ann _. cbn. by destruct (decide _). }
  assert (Hids : ∀ st', position <$> annotations st'
                        = position <$> annotations st → ids st' = ids st).
  { intros st' Heq. unfold ids.
    apply (f_equal (fmap (λ p, p.1.1.1))) in Heq.
    by rewrite <-!list_fmap_compose in Heq. }
  assert (Hdel : ids (handleDeleteAnnotation id st)
                 = filter (λ i, i ≠ id) (ids st)) by apply ids_filter.
  split_and!; [done|done| |done|].
  - intros index. unfold forPage. cbn.
    split; apply overlay_ids_fmap; intros ann; by destruct (decide _).
  - intros Hnodup. rewrite (Hids _ Htext), (Hids _ Hsize), Hdel.
    split_and!; [done|done|]. by apply list.NoDup_filter.
Qed.

End Composition.

(** ** What holds throughout a session *)

Lemma exportPdf_keeps_annotations env (st : State) :
  annotations (exportPdf env st).1 = annotations st.
Proof.
  unfold exportPdf. destruct (pdfFile st) as [f|]; [|done].
  by destruct (exportPdf_try env f _).
Qed.

Section Reachable.
Variable env : Collaborators.
Implicit Types (st : State) (f : File) (a : Action).

(** The two halves of a handler, with nothing in between, are the
    handler. *)
Lemma handleFileChange_halves (file : option File) st :
  (handleFileChange env file st).1 =
    match file with
    | Some f =>
        if decide (type f = "application/pdf")
        then perform env (FinishFileChange f)
               (perform env (StartFileChange file) st)
        else perform env (StartFileChange file) st
    | None => perform env (StartFileChange file) st
    end.
Proof.
  destruct file as [f|]; [|done].
  destruct (decide (type f = "application/pdf")) as [Htype|Htype].
  - rewrite handleFileChange_pdf by done. cbn.
    by rewrite decide_True by done.
  - unfold handleFileChange. cbn. by rewrite !decide_False by done.
Qed.

Lemma exportPdf_halves st :
  (exportPdf env st).1 =
    match pdfFile st with
    | Some f =>
        perform env (FinishDownload f (annotations st))
          (perform env StartDownload st)
    | None => perform env StartDownload st
    end.
Proof.
  unfold exportPdf. cbn. destruct (pdfFile st) as [f|]; [|done].
  change (annotations (setLoading true st)) with (annotations st).
  by destruct (exportPdf_try env f (annotations st)).
Qed.

Lemma consistent_setAnnotations (l : list Annotation) st :
  consistent (setAnnotations l st).
Proof.
  split; cbn; [done|].
  intros Hflag%bool_decide_eq_true ->. cbn in Hflag. lia.
Qed.

Lemma consistent_mounted (stored : option (list Annotation)) :
  consistent (mounted stored).
Proof.
  assert (Hfirst : consistent (persistEffect (initial stored))).
  { split; cbn; [done|].
    intros Hflag%bool_decide_eq_true. cbn in Hflag. lia. }
  unfold mounted, mountEffects. cbn [localStorage initial].
  destruct stored as [parsed|]; [|done]. case_bool_decide; [|done].
  apply consistent_setAnnotations.
Qed.

Lemma consistent_loadPdf f st :
  consistent st → consistent (setLoading false (loadPdf env f st).1).
Proof.
  intros [Hstore Hflag].
  pose proof (loadPdf_frame env f st) as (Hann & _ & _ & Hflag' & Hstore').
  cbn zeta in Hann, Hflag', Hstore'.
  split; unfold setLoading; cbn [localStorage annotations hasUnsavedChanges].
  - by rewrite Hstore', Hann.
  - by rewrite Hflag', Hann.
Qed.

Lemma consistent_perform a st : consistent st → consistent (perform env a st).
Proof.
  intros Hst. pose proof Hst as [Hstore Hflag].
  destruct a as [file|pageIndex event now|ann|id newText|id size|id|
                 |file|f| |f anns]; cbn.
  - (* ChooseFile *)
    destruct file as [f|]; [|done]. unfold handleFileChange.
    destruct (decide (type f = "application/pdf")) as [Htype|]; [|done].
    fold (beforeLoad f st).
    pose proof (consistent_loadPdf f (beforeLoad f st)
                  (consistent_setAnnotations [] _)) as Hload.
    by destruct (loadPdf env f (beforeLoad f st)) as [st4 log].
  - (* ClickPage *)
    unfold handlePageClick.
    destruct (mjoin (annotationContainerRefs st !! pageIndex))
      as [container|]; [|done].
    destruct (target_closest_annotation_text event); [done|].
    split; cbn; [done|].
    intros _ Hnil. by apply app_nil in Hnil as [_ [=]].
  - (* ClickAnnotation *) done.
  - (* EditText *) apply consistent_setAnnotations.
  - (* ChangeFontSize *) apply consistent_setAnnotations.
  - (* Delete *) apply consistent_setAnnotations.
  - (* Download *)
    unfold exportPdf. destruct (pdfFile st) as [f|] eqn:Hf; [|done].
    destruct (exportPdf_try env f _);
      unfold setLoading, setHasUnsavedChanges; cbn; split; done.
  - (* StartFileChange *)
    destruct file as [f|]; [|done].
    destruct (decide (type f = "application/pdf")); [|done].
    apply consistent_setAnnotations.
  - (* FinishFileChange *) by apply consistent_loadPdf.
  - (* StartDownload *) by destruct (pdfFile st).
  - (* FinishDownload *)
    destruct (exportPdf_try env f anns);
      unfold setLoading, setHasUnsavedChanges; cbn; split; done.
Qed.

Lemma consistent_run (actions : list Action) st :
  consistent st → consistent (run env actions st).
Proof.
  revert st. induction actions as [|a actions IH]; intros st Hst; [done|].
  cbn. apply IH. by apply consistent_perform.
Qed.

Lemma overlays_partition (l : list Annotation) (start n : nat) :
  (∀ ann, ann ∈ l → start ≤ Annotation.page ann < start + n) →
  mjoin ((λ index, filter (λ ann, Annotation.page ann = index) l)
           <$> seq start n) ≡ₚ l.
Proof.
  revert start l. induction n as [|n IH]; intros start l Hl.
  - destruct l as [|a l]; [done|].
    assert (Ha : a ∈ a :: l) by left. specialize (Hl a Ha). lia.
  - cbn [seq fmap list_fmap mjoin list_join].
    trans (filter (λ ann, Annotation.page ann = start) l ++
           filter (λ ann, ¬ Annotation.page ann = start) l);
      [|apply filter_app_complement].
    apply Permutation_app_head.
    trans (mjoin ((λ index, filter (λ ann, Annotation.page ann = index)
                    (filter (λ ann, ¬ Annotation.page ann = start) l))
                    <$> seq (S start) n)).
    + assert (Heq :
        (λ index, filter (λ ann, Annotation.page ann = index) l)
          <$> seq (S start) n =
        (λ index, filter (λ ann, Annotation.page ann = index)
           (filter (λ ann, ¬ Annotation.page ann = start) l))
          <$> seq (S start) n).
      { apply list_fmap_ext. intros i index [-> _]%lookup_seq.
        symmetry. apply list_filter_filter_l. intros ann. lia. }
      by rewrite Heq.
    + apply IH. intros ann [Hne Hin]%list_elem_of_filter.
      specialize (Hl ann Hin). lia.
Qed.

Lemma mounted_annotations (l : list Annotation) :
  annotations (mounted (Some l)) = l.
Proof.
  unfold mounted, mountEffects. cbn [localStorage initial].
  case_bool_decide as Hlen; [done|]. cbn. destruct l; [done|].
  cbn in Hlen. lia.
Qed.

(** X9.  Between any two user actions the stored set is the annotation
    set of the component, so a reload restores it: mounting the component
    on what is stored yields the same annotations, flagged as unsaved
    when there are any, and no file. *)
Theorem reload_restores_annotations (stored : option (list Annotation))
    (actions : list Action) :
  let st := run env actions (mounted stored) in
  localStorage st = Some (annotations st) ∧
  annotations (mounted (localStorage st)) = annotations st ∧
  hasUnsavedChanges (mounted (localStorage st))
    = bool_decide (0 < length (annotations st)) ∧
  pdfFile (mounted (localStorage st)) = None.
Proof.
  intros st.
  destruct (consistent_run actions _ (consistent_mounted stored))
    as [Hstore _]. fold st in Hstore.
  rewrite Hstore. split_and!; [done|apply mounted_annotations| |].
  - unfold mounted, mountEffects. cbn [localStorage initial].
    case_bool_decide as Hlen; [by cbn; rewrite bool_decide_eq_true_2|].
    cbn. destruct (annotations st); [done|]. cbn in Hlen. lia.
  - unfold mounted, mountEffects. cbn [localStorage initial].
    by case_bool_decide.
Qed.

(** X10.  The unload guard.  Between any two user actions the handler
    leaves the event alone when nothing is flagged, and when it
    intercepts the unload the annotation set is not empty.  After a
    successful export the unload is not intercepted; any text edit made
    after it on a non-empty set, even one that matches no annotation,
    brings the guard back. *)
Theorem unload_guard (stored : option (list Annotation))
    (actions : list Action) (event : BeforeUnloadEvent) :
  let st := run env actions (mounted stored) in
  (hasUnsavedChanges st = false → handleBeforeUnload st event = event) ∧
  (hasUnsavedChanges st = true →
     annotations st ≠ [] ∧
     handleBeforeUnload st event =
       {| defaultPrevented := true; returnValue := Some EmptyString |}) ∧
  (∀ f bytes, pdfFile st = Some f →
     exportPdf_try env f (annotations st) = Ok bytes →
     handleBeforeUnload (perform env Download st) event = event) ∧
  (∀ id newText, annotations st ≠ [] →
     handleBeforeUnload
       (perform env (EditText id newText) (perform env Download st)) event =
       {| defaultPrevented := true; returnValue := Some EmptyString |}).
Proof.
  intros st.
  destruct (consistent_run actions _ (consistent_mounted stored))
    as [_ Hflag]. fold st in Hflag.
  unfold handleBeforeUnload. split_and!.
  - by intros ->.
  - intros Htrue. rewrite Htrue. split; [by apply Hflag|done].
  - intros f bytes Hfile Hrun. unfold perform, exportPdf. rewrite Hfile.
    change (annotations (setLoading true st)) with (annotations st).
    by rewrite Hrun.
  - intros id newText Hne. cbn.
    pose proof (exportPdf_keeps_annotations env st) as Hann.
    rewrite bool_decide_eq_true_2; [done|].
    rewrite length_fmap, Hann. destruct (annotations st); [done|cbn; lia].
Qed.

(** X11.  While a file is set there is one overlay per page, each the
    annotations of its page in the order of the set, and the overlays
    together show exactly once every annotation whose page is below
    [numPages]; an annotation of a page at or beyond [numPages] is in no
    overlay.  Without a file nothing is shown, whatever the set holds. *)
Theorem overlays_show_pages_in_range st :
  (is_Some (pdfFile st) →
     length (overlays st) = numPages st ∧
     mjoin (overlays st) ≡ₚ
       filter (λ ann, Annotation.page ann < numPages st) (annotations st) ∧
     (∀ index, index < numPages st →
        overlays st !! index = Some (forPage index st) ∧
        forPage index st `sublist_of` annotations st) ∧
     (∀ ann overlay, numPages st ≤ Annotation.page ann →
        overlay ∈ overlays st → ann ∉ overlay)) ∧
  (pdfFile st = None → overlays st = []).
Proof.
  unfold overlays. split; [|by intros ->].
  intros Hfile. destruct (pdfFile st); [|by destruct Hfile].
  split_and!.
  - by rewrite length_fmap, length_seq.
  - assert (Heq :
      (λ index, forPage index st) <$> seq 0 (numPages st) =
      (λ index, filter (λ ann, Annotation.page ann = index)
         (filter (λ ann, Annotation.page ann < numPages st)
            (annotations st)))
        <$> seq 0 (numPages st)).
    { apply list_fmap_ext. intros i index [-> Hi]%lookup_seq.
      unfold forPage. symmetry. apply list_filter_filter_l.
      intros ann. cbn. lia. }
    rewrite Heq. apply overlays_partition.
    intros ann [Hlt _]%list_elem_of_filter. lia.
  - intros index Hlt. split; [|apply sublist_filter].
    by rewrite list_lookup_fmap, lookup_seq_lt.
  - intros ann overlay Hge (index & -> & Hin%elem_of_seq)%list_elem_of_fmap.
    unfold forPage. intros [Heq _]%list_elem_of_filter. lia.
Qed.

(** X12.  A set restored at mount has no document: it is held in the
    state, but no page shows it, a click on a page adds nothing to it and
    the export has no file to write it into.  Choosing a file declared as
    PDF then discards it from the state and from the storage, whether or
    not the file loads. *)
Theorem restored_set_is_discarded (stored : list Annotation) :
  annotations (mounted (Some stored)) = stored ∧
  pdfFile (mounted (Some stored)) = None ∧
  overlays (mounted (Some stored)) = [] ∧
  (∀ pageIndex event now,
     handlePageClick pageIndex event now (mounted (Some stored))
       = mounted (Some stored)) ∧
  exportPdf env (mounted (Some stored))
    = (mounted (Some stored), [alert "No PDF file loaded!"]) ∧
  (∀ f, type f = "application/pdf" →
     annotations (handleFileChange env (Some f) (mounted (Some stored))).1
       = [] ∧
     localStorage (handleFileChange env (Some f) (mounted (Some stored))).1
       = Some []).
Proof.
  assert (Hfile : pdfFile (mounted (Some stored)) = None).
  { unfold mounted, mountEffects. cbn [localStorage initial].
    by case_bool_decide. }
  assert (Hrefs : annotationContainerRefs (mounted (Some stored)) = []).
  { unfold mounted, mountEffects. cbn [localStorage initial].
    by case_bool_decide. }
  split_and!; [apply mounted_annotations|done| | | |].
  - unfold overlays. by rewrite Hfile.
  - intros pageIndex event now. unfold handlePageClick.
    by rewrite Hrefs, lookup_nil.
  - unfold exportPdf. by rewrite Hfile.
  - intros f Htype. rewrite handleFileChange_pdf by done. cbn [fst].
    pose proof (loadPdf_frame env f (beforeLoad f (mounted (Some stored))))
      as (Hann & _ & _ & _ & Hstore).
    cbn zeta in Hann, Hstore.
    unfold setLoading; cbn [annotations localStorage].
    by rewrite Hann, Hstore.
Qed.


End Reachable.

(** ** The further properties on explicit runs *)

Section SessionRuns.
Import Demo Session.

Local Ltac run := vm_compute; first [reflexivity | discriminate].

Lemma edited_annotations :
  annotations edited =
    [note "1700000000000" 1 100 200; note "1700000001000" 0 50 100;
     note "1700000002000" 1 200 100].
Proof. run. Qed.

Lemma export_loop_draws_each_page_witness :
  drawAnnotations font (annotations edited) [blankPage; blankPage] =
    Ok [drawText blankPage (textObject font 792 (note "1700000001000" 0 50 100));
        drawText
          (drawText blankPage
             (textObject font 792 (note "1700000000000" 1 100 200)))
          (textObject font 792 (note "1700000002000" 1 200 100))] ∧
  (∀ ann, ann ∈ annotations edited →
          Annotation.page ann < length [blankPage; blankPage]) ∧
  ∃ pg',
    [drawText blankPage (textObject font 792 (note "1700000001000" 0 50 100));
     drawText
       (drawText blankPage
          (textObject font 792 (note "1700000000000" 1 100 200)))
       (textObject font 792 (note "1700000002000" 1 200 100))] !! 1
      = Some pg' ∧
    op_y <$> content pg' = [592%Q; 692%Q].
Proof.
  assert (Hrun :
    drawAnnotations font (annotations edited) [blankPage; blankPage] =
    Ok [drawText blankPage (textObject font 792 (note "1700000001000" 0 50 100));
        drawText
          (drawText blankPage
             (textObject font 792 (note "1700000000000" 1 100 200)))
          (textObject font 792 (note "1700000002000" 1 200 100))])
    by run.
  split; [exact Hrun|].
  destruct (export_loop_draws_each_page _ _ _ _ Hrun)
    as (Hrange & _ & Hcontent).
  split; [exact Hrange|].
  destruct (Hcontent 1 blankPage eq_refl) as (pg' & Hpg' & _ & Hops).
  exists pg'. split; [exact Hpg'|]. rewrite Hops. run.
Defined.

Lemma export_fails_on_missing_page_witness :
  pdfFile staleClick = Some onePage ∧
  (exportPdf env staleClick).2 =
    [console_error "Failed to export PDF:";
     alert "An error occurred while exporting the PDF."] ∧
  hasUnsavedChanges (exportPdf env staleClick).1
    = hasUnsavedChanges staleClick.
Proof.
  assert (Hfile : pdfFile staleClick = Some onePage) by run.
  split; [exact Hfile|].
  destruct (export_fails_on_missing_page env) as [_ Hexport].
  destruct (Hexport staleClick onePage Hfile) as (Hlog & _ & Hflag).
  - intros existingPdfBytes pdfDoc [= <-] [= <-].
    exists (note "1700000000000" 4 150 84).
    split; [|cbn; lia].
    replace (annotations staleClick) with
      [note "1700000000000" 4 150 84; note "1700000005000" 0 50 100]
      by (symmetry; run).
    left.
  - split; [exact Hlog|exact Hflag].
Defined.

Lemma export_depends_on_page_order_only_witness :
  [note "a" 1 10 20; note "b" 0 30 40] ≠ [note "b" 0 30 40; note "a" 1 10 20] ∧
  drawAnnotations font [note "a" 1 10 20; note "b" 0 30 40]
    [blankPage; blankPage] =
  drawAnnotations font [note "b" 0 30 40; note "a" 1 10 20]
    [blankPage; blankPage].
Proof.
  split; [discriminate|].
  apply export_depends_on_page_order_only.
  intros [|[|p]]; reflexivity.
Defined.

Lemma place_then_remove_witness :
  mjoin (annotationContainerRefs (open onePage) !! 0) =
    Some {| getBoundingClientRect := {| left := 8; top := 100 |} |} ∧
  annotations (handleDeleteAnnotation (pretty 1700000000000%Z)
                 (handlePageClick 0 (click 158 250) 1700000000000
                    (open onePage)))
    = annotations (open onePage).
Proof.
  assert (Hrefs : mjoin (annotationContainerRefs (open onePage) !! 0) =
            Some {| getBoundingClientRect := {| left := 8; top := 100 |} |})
    by (vm_compute; reflexivity).
  split; [exact Hrefs|].
  destruct (place_then_remove 0 (click 158 250) 1700000000000 (open onePage)
              _ Hrefs eq_refl) as (_ & Hfresh & _).
  apply Hfresh. intros ann Hin. vm_compute in Hin.
  by apply elem_of_nil in Hin.
Defined.

Lemma unload_guard_witness :
  handleBeforeUnload edited
    {| defaultPrevented := false; returnValue := None |} =
    {| defaultPrevented := true; returnValue := Some EmptyString |} ∧
  handleBeforeUnload (perform env Download edited)
    {| defaultPrevented := false; returnValue := None |} =
    {| defaultPrevented := false; returnValue := None |}.
Proof.
  destruct (unload_guard env None threeNotes
              {| defaultPrevented := false; returnValue := None |})
    as (_ & Harmed & Hexported & _).
  split.
  - apply Harmed. vm_compute. reflexivity.
  - apply (Hexported twoPages
             [Byte.x50; Byte.x54; Byte.x50; Byte.x54; Byte.x54]);
      vm_compute; reflexivity.
Defined.

Lemma overlays_show_pages_in_range_witness :
  annotations (run env clickDuringLoad (mounted None)) =
    [note "1700000003000" 4 100 84] ∧
  numPages (run env clickDuringLoad (mounted None)) = 1 ∧
  length (overlays (run env clickDuringLoad (mounted None))) = 1 ∧
  mjoin (overlays (run env clickDuringLoad (mounted None))) ≡ₚ [].
Proof.
  split; [run|]. split; [run|].
  destruct (overlays_show_pages_in_range
              (run env clickDuringLoad (mounted None))) as [Hshown _].
  destruct Hshown as (Hlen & Hperm & _); [vm_compute; by eexists|].
  split; [exact Hlen|exact Hperm].
Defined.

End SessionRuns.

(** ** Selection and repeated export *)

Section Selection.
Implicit Types (st : State) (ann : Annotation).

Lemma filter_no_such_id (l : list Annotation) (i : string) :
  i ∉ Annotation.id <$> l →
  filter (λ b, Annotation.id b = i) l = [].
Proof.
  induction l as [|a l IH]; intros Hnotin; [done|].
  cbn [fmap list_fmap] in Hnotin. apply not_elem_of_cons in Hnotin as [Hne ?].
  rewrite filter_cons_False by done. by apply IH.
Qed.

Lemma filter_same_id (l : list Annotation) ann :
  NoDup (Annotation.id <$> l) → ann ∈ l →
  filter (λ b, Annotation.id b = Annotation.id ann) l = [ann].
Proof.
  induction l as [|a l IH]; intros Hnodup Hin; [by apply elem_of_nil in Hin|].
  cbn [fmap list_fmap] in Hnodup.
  apply list.NoDup_cons in Hnodup as [Hnotin Hnodup].
  apply elem_of_cons in Hin as [->|Hin].
  - rewrite filter_cons_True by done. f_equal.
    by apply filter_no_such_id.
  - rewrite filter_cons_False; [by apply IH|].
    intros Heq. apply Hnotin. rewrite Heq. by apply list_elem_of_fmap_2.
Qed.

(** X15.  Selection is exclusive.  After a click on an annotation of the
    set, when the ids of the set are pairwise distinct, that annotation is
    the only one that displays the editing chrome, whichever was selected
    before; the set itself is untouched. *)
Theorem selection_is_exclusive ann st :
  ann ∈ annotations st →
  NoDup (ids st) →
  let st' := handleAnnotationClick ann st in
  filter (λ b, isSelected st' b = true) (annotations st') = [ann] ∧
  annotations st' = annotations st.
Proof.
  intros Hin Hnodup st'. split; [|done].
  rewrite <-(filter_same_id (annotations st) ann Hnodup Hin).
  apply list_filter_iff. intros b. unfold isSelected. cbn.
  rewrite bool_decide_eq_true. split; [by intros [= ->]|by intros ->].
Qed.


Lemma selection_is_exclusive_witness :
  selectedAnnotation Session.edited = Some "1700000002000" ∧
  NoDup (ids Session.edited) ∧
  filter (λ b, isSelected
                 (handleAnnotationClick
                    (Demo.note "1700000001000" 0 50 100) Session.edited) b
               = true)
    (annotations
       (handleAnnotationClick
          (Demo.note "1700000001000" 0 50 100) Session.edited))
  = [Demo.note "1700000001000" 0 50 100].
Proof.
  assert (Hids : ids Session.edited =
            ["1700000000000"; "1700000001000"; "1700000002000"])
    by (vm_compute; reflexivity).
  assert (Hnodup : NoDup (ids Session.edited)).
  { rewrite Hids. apply (bool_decide_unpack _). vm_compute. exact I. }
  assert (Hin : Demo.note "1700000001000" 0 50 100
                  ∈ annotations Session.edited).
  { apply list_elem_of_lookup. exists 1. vm_compute. reflexivity. }
  split; [vm_compute; reflexivity|]. split; [exact Hnodup|].
  destruct (selection_is_exclusive _ _ Hin Hnodup) as [Hsel _].
  exact Hsel.
Defined.

End Selection.
